(** * ynab_api: the YNAB client class, embedded and verified

    A shallow embedding of [src/ynab_api.py].  The class [YNABAPI] loads
    credentials, resolves the budget called 'My Budget', fetches its
    category groups and then strips hidden categories and empty groups.

    - Parsed JSON is the dynamically typed value Python sees ([json]);
      subscripting, iteration, [len] and truthiness are written out with
      the exceptions Python raises.
    - Methods run in a state-and-exception monad over the instance
      attributes and a trace of the HTTP exchanges performed so far.
    - The file system, the JSON codec and the HTTP transport are outside
      the repository; they are the fields of an environment record. *)

From Stdlib Require Import ZArith String Ascii SpecFloat.
From stdpp Require Import gmap strings list pretty.

Set Warnings "-register-all".
#[local] Open Scope Z_scope.

(** ** Python values *)

(** What [json.load] / [Response.json] return: [None], [bool], [int],
    [float], [str], [list] and [dict] with [str] keys.  A [dict] is kept
    as its items in insertion order; the decoder never yields a repeated
    key (the last binding wins there), and [getitem] below reads the
    first binding so that it is a function in every case.  A [str] is
    kept as its UTF-8 encoding, a character being a lead byte with the
    continuation bytes after it. *)
Inductive json : Type :=
  | JNull
  | JBool (b : bool)
  | JInt (n : Z)
  | JFloat (f : spec_float)
  | JStr (s : string)
  | JArr (l : list json)
  | JObj (items : list (string * json)).

(** The exceptions that can leave a method of the class.
    [requests.exceptions.RequestException] and [IOError] never do: the
    code catches them where they arise.  [UnicodeDecodeError] is a
    [ValueError] that is neither an [IOError] nor a
    [json.JSONDecodeError]. *)
Inductive exn : Type :=
  | YNABAPIError (msg : string)
  | KeyError (key : string)
  | TypeError
  | AttributeError (name : string)
  | JSONDecodeError
  | UnicodeDecodeError.

Inductive result (A : Type) : Type :=
  | Ok (a : A)
  | Raise (e : exn).
Arguments Ok {A} a.
Arguments Raise {A} e.

Definition rbind {A B} (r : result A) (k : A → result B) : result B :=
  match r with
  | Ok a => k a
  | Raise e => Raise e
  end.

Notation "x ←? r ; k" := (rbind r (λ x, k))
  (at level 20, r at level 100, k at level 200, right associativity,
   format "x  ←?  r ;  '/' k").

(** The character '\n'. *)
Definition nl : string := String (ascii_of_nat 10) EmptyString.

Fixpoint assoc (k : string) (items : list (string * json)) : option json :=
  match items with
  | [] => None
  | (k', v) :: rest => if String.eqb k k' then Some v else assoc k rest
  end.

(** [d[k] = v] on a dict: an existing key keeps its place. *)
Fixpoint assoc_set (k : string) (v : json) (items : list (string * json))
    : list (string * json) :=
  match items with
  | [] => [(k, v)]
  | (k', v') :: rest =>
      if String.eqb k k' then (k, v) :: rest else (k', v') :: assoc_set k v rest
  end.

(** [o[k]] for a [str] literal [k]: only a dict accepts it. *)
Definition getitem (o : json) (k : string) : result json :=
  match o with
  | JObj items =>
      match assoc k items with
      | Some v => Ok v
      | None => Raise (KeyError k)
      end
  | _ => Raise TypeError
  end.

(** [o[k] = v] for a [str] literal [k]. *)
Definition setitem (o : json) (k : string) (v : json) : result json :=
  match o with
  | JObj items => Ok (JObj (assoc_set k v items))
  | _ => Raise TypeError
  end.

(** A continuation byte of UTF-8: [10xxxxxx]. *)
Definition continuation (a : ascii) : bool :=
  match a with
  | Ascii _ _ _ _ _ _ b6 b7 => b7 && negb b6
  end.

(** The continuation bytes a string starts with, and the characters after
    them. *)
Fixpoint split_chars (s : string) : string * list string :=
  match s with
  | EmptyString => (EmptyString, [])
  | String a rest =>
      let (lead, chars) := split_chars rest in
      if continuation a then (String a lead, chars)
      else (EmptyString, String a lead :: chars)
  end.

(** The characters of a [str], each as a [str] of length one. *)
Definition py_chars (s : string) : list string :=
  match split_chars s with
  | (EmptyString, chars) => chars
  | (lead, chars) => lead :: chars
  end.

(** [iter(o)]: a list yields its elements, a dict its keys, a str its
    characters; the other values are not iterable. *)
Definition py_iter (o : json) : result (list json) :=
  match o with
  | JArr l => Ok l
  | JObj items => Ok (map (λ kv, JStr (fst kv)) items)
  | JStr s => Ok (map JStr (py_chars s))
  | _ => Raise TypeError
  end.

(** [len(o)]; for a [str], the number of its characters. *)
Definition py_len (o : json) : result Z :=
  match o with
  | JArr l => Ok (Z.of_nat (length l))
  | JObj items => Ok (Z.of_nat (length items))
  | JStr s => Ok (Z.of_nat (length (py_chars s)))
  | _ => Raise TypeError
  end.

(** [bool(o)]. *)
Definition truthy (o : json) : bool :=
  match o with
  | JNull => false
  | JBool b => b
  | JInt n => negb (n =? 0)
  | JFloat (S754_zero _) => false
  | JFloat _ => true
  | JStr s => negb (String.eqb s "")
  | JArr l => negb (Nat.eqb (length l) 0)
  | JObj items => negb (Nat.eqb (length items) 0)
  end.

(** [o == name] for a [str] [name]. *)
Definition eq_str (o : json) (name : string) : bool :=
  match o with
  | JStr s => String.eqb s name
  | _ => false
  end.

(** [a + b] where one operand is known to be a [str]: the other has to
    be one too, and the sum is their concatenation. *)
Definition str_add (a b : json) : result string :=
  match a, b with
  | JStr x, JStr y => Ok (x +:+ y)
  | _, _ => Raise TypeError
  end.

(** Keys of a Python dict, up to [==] and [hash]: [True == 1 == 1.0] are
    one key, a [str] is its own key.  Floats are taken in their canonical
    binary64 form, as the decoder produces them. *)
Inductive pykey : Type :=
  | KNone
  | KNum (n : Z)
  | KFloat (f : spec_float)
  | KStr (s : string).

Definition float_key (f : spec_float) : pykey :=
  match f with
  | S754_zero _ => KNum 0
  | S754_finite s m e =>
      let v := if s then Z.neg m else Z.pos m in
      if 0 <=? e then KNum (v * 2 ^ e)
      else if Z.pos m mod 2 ^ (- e) =? 0 then KNum (v / 2 ^ (- e))
      else KFloat f
  | _ => KFloat f
  end.

(** The key under which [d[o] = ...] stores; lists and dicts are
    unhashable. *)
Definition hash_key (o : json) : result pykey :=
  match o with
  | JNull => Ok KNone
  | JBool b => Ok (KNum (Z.b2z b))
  | JInt n => Ok (KNum n)
  | JFloat f => Ok (float_key f)
  | JStr s => Ok (KStr s)
  | JArr _ | JObj _ => Raise TypeError
  end.

#[global] Instance spec_float_eq_dec : EqDecision spec_float.
Proof. solve_decision. Defined.

#[global] Instance pykey_eq_dec : EqDecision pykey.
Proof. solve_decision. Defined.

Definition pykey_code (k : pykey) : unit + Z + (bool + bool + unit + bool * positive * Z) + string :=
  match k with
  | KNone => inl (inl (inl tt))
  | KNum n => inl (inl (inr n))
  | KFloat (S754_zero s) => inl (inr (inl (inl (inl s))))
  | KFloat (S754_infinity s) => inl (inr (inl (inl (inr s))))
  | KFloat S754_nan => inl (inr (inl (inr tt)))
  | KFloat (S754_finite s m e) => inl (inr (inr (s, m, e)))
  | KStr s => inr s
  end.

Definition pykey_decode (c : unit + Z + (bool + bool + unit + bool * positive * Z) + string) : pykey :=
  match c with
  | inl (inl (inl _)) => KNone
  | inl (inl (inr n)) => KNum n
  | inl (inr (inl (inl (inl s)))) => KFloat (S754_zero s)
  | inl (inr (inl (inl (inr s)))) => KFloat (S754_infinity s)
  | inl (inr (inl (inr _))) => KFloat S754_nan
  | inl (inr (inr (s, m, e))) => KFloat (S754_finite s m e)
  | inr s => KStr s
  end.

#[global] Instance pykey_countable : Countable pykey.
Proof.
  apply (inj_countable' pykey_code pykey_decode).
  intros [| n | [s | s | | s m e] | s]; reflexivity.
Defined.

(** ** The world outside the class *)

Inductive http_method : Type := GET | PATCH.

(** One call of [requests.get] / [requests.patch] as the class issues it. *)
Record request : Type := {
  req_method : http_method;
  req_url : string;
  req_body : option string;
  req_headers : list (string * string)
}.

(** A [requests.Response], as far as the class looks at it.  [resp_json]
    is what [result.json()] gives: [None] when the body is not JSON and
    the call raises. *)
Record response : Type := {
  status_code : Z;
  resp_json : option json
}.

(** [Response.ok]: [raise_for_status()] would not raise, that is, the
    status is not 4xx or 5xx. *)
Definition ok (r : response) : bool :=
  negb ((400 <=? status_code r) && (status_code r <? 600)).

(** Either the transport raised a [RequestException] ([str(err)] kept)
    or a response arrived. *)
Inductive http_outcome : Type :=
  | TransportError (err : string)
  | Response (r : response).

(** [open(path)] followed by reading the file inside [json.load]: an
    [IOError] with its [str(err)], bytes that do not decode as text (the
    read raises [UnicodeDecodeError]), or the text. *)
Inductive file_outcome : Type :=
  | FileError (err : string)
  | FileUndecodable
  | FileText (text : string).

Definition exchange : Type := request * http_outcome.

Record Env : Type := {
  expanduser : string → string;
  open_read : string → file_outcome;
  (** [json.load]; [None] stands for [json.JSONDecodeError] *)
  json_loads : string → option json;
  json_dumps : json → string;
  (** [str()] of a float, list or dict *)
  py_repr : json → string;
  (** the server, which may answer by what it has seen so far *)
  http : list exchange → request → http_outcome
}.

(** ** The instance and the monad of its methods *)

(** The attributes of a [YNABAPI] object; [None] is an attribute not
    assigned yet. *)
Record YNABAPI : Type := {
  headers : option (list (string * string));
  budget_id : option json;
  category_groups : option json;
  category_ids : option (gmap pykey json)
}.

Definition blank : YNABAPI :=
  {| headers := None; budget_id := None;
     category_groups := None; category_ids := None |}.

Record Sys : Type := {
  self : YNABAPI;
  trace : list exchange
}.

Definition M (A : Type) : Type := Sys → result A * Sys.

Definition ret {A} (a : A) : M A := λ s, (Ok a, s).
Definition raise {A} (e : exn) : M A := λ s, (Raise e, s).
Definition lift {A} (r : result A) : M A := λ s, (r, s).

Definition bind {A B} (m : M A) (k : A → M B) : M B :=
  λ s, match m s with
       | (Ok a, s') => k a s'
       | (Raise e, s') => (Raise e, s')
       end.

Notation "'let*' x := m 'in' k" := (bind m (λ x, k))
  (at level 10, x name, m at level 100, k at level 200, only parsing).

(** [self.<name>] *)
Definition attr {A} (name : string) (field : YNABAPI → option A) : M A :=
  λ s, match field (self s) with
       | Some a => (Ok a, s)
       | None => (Raise (AttributeError name), s)
       end.

Definition update (f : YNABAPI → YNABAPI) : M unit :=
  λ s, (Ok tt, {| self := f (self s); trace := trace s |}).

Definition set_headers (h : list (string * string)) : M unit :=
  update (λ o, {| headers := Some h; budget_id := budget_id o;
                  category_groups := category_groups o;
                  category_ids := category_ids o |}).

Definition set_budget_id (v : json) : M unit :=
  update (λ o, {| headers := headers o; budget_id := Some v;
                  category_groups := category_groups o;
                  category_ids := category_ids o |}).

Definition set_category_groups (v : json) : M unit :=
  update (λ o, {| headers := headers o; budget_id := budget_id o;
                  category_groups := Some v;
                  category_ids := category_ids o |}).

Definition set_category_ids (d : gmap pykey json) : M unit :=
  update (λ o, {| headers := headers o; budget_id := budget_id o;
                  category_groups := category_groups o;
                  category_ids := Some d |}).

Fixpoint for_each {A} (l : list A) (body : A → M unit) : M unit :=
  match l with
  | [] => ret tt
  | x :: rest => let* _ := body x in for_each rest body
  end.

(** [list(filter(pred, o))]; [pred] already returns the truth value of
    what the Python predicate returns. *)
Fixpoint filter_list (pred : json → result bool) (l : list json)
    : result (list json) :=
  match l with
  | [] => Ok []
  | x :: rest =>
      b ←? pred x;
      kept ←? filter_list pred rest;
      Ok (if b then x :: kept else kept)
  end.

Definition py_filter (pred : json → result bool) (o : json)
    : result (list json) :=
  l ←? py_iter o; filter_list pred l.

Definition API_PREFIX : string := "https://api.youneedabudget.com/v1".

Definition content_type : list (string * string) :=
  [("Content-Type", "application/json")].

(** ** The class *)

Section Client.

Variable env : Env.

(** [str(o)], as ['{}'.format(o)] inserts it. *)
Definition py_str (o : json) : string :=
  match o with
  | JStr s => s
  | JInt n => pretty n
  | JBool true => "True"
  | JBool false => "False"
  | JNull => "None"
  | _ => py_repr env o
  end.

(** One network request: the outcome is the server's, and the exchange
    is appended to the trace. *)
Definition send (req : request) : M http_outcome :=
  λ s, let o := http env (trace s) req in
       (Ok o, {| self := self s; trace := trace s ++ [(req, o)] |}).

(** The [try] block of [__setup_ynab] once the file has been decoded. *)
Definition authorization (credentials : json) : result string :=
  prefix ←? getitem credentials "prefix";
  left ←? str_add prefix (JStr " ");
  key ←? getitem credentials "key";
  str_add (JStr left) key.

Definition __setup_ynab (credentials_filename : string) : M unit :=
  let* _ := set_headers content_type in
  match open_read env (expanduser env credentials_filename) with
  | FileError err =>
      raise (YNABAPIError ("Unable to open credentials file:" +:+ nl +:+ err))
  | FileUndecodable => raise UnicodeDecodeError
  | FileText text =>
      match json_loads env text with
      | None =>
          raise (YNABAPIError
                   ("Unable to parse credentials file " +:+ credentials_filename))
      | Some credentials =>
          match authorization credentials with
          | Ok value =>
              set_headers (content_type ++ [("Authorization", value)])
          | Raise (KeyError key) =>
              raise (YNABAPIError
                       ("Expected key '" +:+ key +:+ "' not found in credentials "
                        +:+ "file " +:+ credentials_filename))
          | Raise e => raise e
          end
      end
  end.

Definition __check_api_result (result : response) : M json :=
  match resp_json result with
  | None => raise JSONDecodeError
  | Some data =>
      if negb (ok result) then
        let* error := lift (getitem data "error") in
        let* name := lift (getitem error "name") in
        let* error' := lift (getitem data "error") in
        let* detail := lift (getitem error' "detail") in
        raise (YNABAPIError
                 ("Request Error: " +:+ pretty (status_code result) +:+ " "
                  +:+ py_str name +:+ ":" +:+ py_str detail))
      else ret data
  end.

Definition api_get (url : string) : M json :=
  let* h := attr "headers" headers in
  let* outcome := send {| req_method := GET; req_url := API_PREFIX +:+ url;
                          req_body := None; req_headers := h |} in
  match outcome with
  | TransportError err => raise (YNABAPIError ("YNAB API error:" +:+ nl +:+ err))
  | Response result => __check_api_result result
  end.

Definition api_patch (url : string) (data : json) : M json :=
  let* h := attr "headers" headers in
  let* outcome := send {| req_method := PATCH; req_url := API_PREFIX +:+ url;
                          req_body := Some (json_dumps env data);
                          req_headers := h |} in
  match outcome with
  | TransportError err => raise (YNABAPIError ("YNAB API error:" +:+ nl +:+ err))
  | Response result => __check_api_result result
  end.

(** The [for budget in ...] loop of [__get_ynab_budget_id]. *)
Fixpoint find_budget (name : string) (budgets : list json) : M unit :=
  match budgets with
  | [] => raise (YNABAPIError ("Budget '" +:+ name +:+ "' not found"))
  | budget :: rest =>
      let* n := lift (getitem budget "name") in
      if eq_str n name then
        let* id := lift (getitem budget "id") in
        set_budget_id id
      else find_budget name rest
  end.

Definition __get_ynab_budget_id (name : string) : M unit :=
  let* budget_summary := api_get "/budgets" in
  let* data := lift (getitem budget_summary "data") in
  let* budgets := lift (getitem data "budgets") in
  let* l := lift (py_iter budgets) in
  find_budget name l.

(** [self.category_ids[category['name']] = category['id']]: the right
    hand side is evaluated first. *)
Definition index_category (category : json) : M unit :=
  let* id := lift (getitem category "id") in
  let* ids := attr "category_ids" category_ids in
  let* name := lift (getitem category "name") in
  let* k := lift (hash_key name) in
  set_category_ids (<[k := id]> ids).

Definition index_group (group : json) : M unit :=
  let* categories := lift (getitem group "categories") in
  let* l := lift (py_iter categories) in
  for_each l index_category.

Definition __get_ynab_budget_categories : M unit :=
  let* id := attr "budget_id" budget_id in
  let* categories_response :=
    api_get ("/budgets/" +:+ py_str id +:+ "/categories") in
  let* data := lift (getitem categories_response "data") in
  let* groups := lift (getitem data "category_groups") in
  let* _ := set_category_groups groups in
  let* _ := set_category_ids ∅ in
  let* l := lift (py_iter groups) in
  for_each l index_group.

(** [lambda x: not x['hidden']] *)
Definition not_hidden (x : json) : result bool :=
  h ←? getitem x "hidden"; Ok (negb (truthy h)).

(** The group objects are the elements of the stored list and are changed
    in place; position [i] names the object being changed.  When the
    stored value is not a list its elements are strings, and the
    subscript before the store has already raised. *)
Definition store_group (i : nat) (group : json) : M unit :=
  let* groups := attr "category_groups" category_groups in
  match groups with
  | JArr l => set_category_groups (JArr (<[i := group]> l))
  | _ => ret tt
  end.

Fixpoint strip_groups (i : nat) (groups : list json) : M unit :=
  match groups with
  | [] => ret tt
  | group :: rest =>
      let* categories := lift (getitem group "categories") in
      let* kept := lift (py_filter not_hidden categories) in
      let* group' := lift (setitem group "categories" (JArr kept)) in
      let* _ := store_group i group' in
      strip_groups (S i) rest
  end.

Definition __remove_hidden_categories : M unit :=
  let* groups := attr "category_groups" category_groups in
  let* l := lift (py_iter groups) in
  strip_groups 0 l.

Definition __valid_category_group (group : json) : result Z :=
  categories ←? getitem group "categories"; py_len categories.

Definition __remove_unused_category_groups : M unit :=
  let* groups := attr "category_groups" category_groups in
  let* kept := lift (py_filter
                       (λ group, n ←? __valid_category_group group;
                                 Ok (negb (n =? 0)))
                       groups) in
  set_category_groups (JArr kept).

Definition __init__ (credentials_filename : string) : M unit :=
  let* _ := __setup_ynab credentials_filename in
  let* _ := __get_ynab_budget_id "My Budget" in
  let* _ := __get_ynab_budget_categories in
  let* _ := __remove_hidden_categories in
  __remove_unused_category_groups.

(** [YNABAPI(credentials_filename)]: [__init__] on a fresh object. *)
Definition construct (credentials_filename : string) (tr : list exchange)
    : result unit * Sys :=
  __init__ credentials_filename {| self := blank; trace := tr |}.

End Client.

(** ** Calls of the two request primitives *)

(** A call of [api_get] or of [api_patch], to state once what holds of
    both. *)
Inductive api_call : Type :=
  | Get (url : string)
  | Patch (url : string) (data : json).

Definition run_call (env : Env) (c : api_call) : M json :=
  match c with
  | Get url => api_get env url
  | Patch url data => api_patch env url data
  end.

(** The request a call hands to the transport when [self.headers] is [h]. *)
Definition request_of (env : Env) (h : list (string * string)) (c : api_call)
    : request :=
  match c with
  | Get url =>
      {| req_method := GET; req_url := API_PREFIX +:+ url;
         req_body := None; req_headers := h |}
  | Patch url data =>
      {| req_method := PATCH; req_url := API_PREFIX +:+ url;
         req_body := Some (json_dumps env data); req_headers := h |}
  end.

(** The state after one more exchange. *)
Definition logged (s : Sys) (req : request) (o : http_outcome) : Sys :=
  {| self := self s; trace := trace s ++ [(req, o)] |}.

(** The status is in the 2xx class. *)
Definition is_2xx (r : response) : Prop := 200 <= status_code r < 300.

(** ** Vocabulary for the cleaned category tree *)

(** The state after [self.budget_id = v], after
    [self.category_groups = v] and after [self.category_ids = d]. *)
Definition with_budget_id (s : Sys) (v : json) : Sys :=
  {| self := {| headers := headers (self s); budget_id := Some v;
                category_groups := category_groups (self s);
                category_ids := category_ids (self s) |};
     trace := trace s |}.

Definition with_groups (s : Sys) (v : json) : Sys :=
  {| self := {| headers := headers (self s); budget_id := budget_id (self s);
                category_groups := Some v;
                category_ids := category_ids (self s) |};
     trace := trace s |}.

Definition with_ids (s : Sys) (d : gmap pykey json) : Sys :=
  {| self := {| headers := headers (self s); budget_id := budget_id (self s);
                category_groups := category_groups (self s);
                category_ids := Some d |};
     trace := trace s |}.

(** [s'] differs from [s] in [category_ids] at most. *)
Definition same_but_ids (s s' : Sys) : Prop :=
  headers (self s') = headers (self s) ∧
  budget_id (self s') = budget_id (self s) ∧
  category_groups (self s') = category_groups (self s) ∧
  trace s' = trace s.

(** What iterating [group['categories']] yields; nothing when the
    subscript or the iteration raises. *)
Definition categories_of (group : json) : list json :=
  match (cs ←? getitem group "categories"; py_iter cs) with
  | Ok l => l
  | Raise _ => []
  end.

(** The category passes [lambda x: not x['hidden']]. *)
Definition visible (category : json) : bool :=
  match not_hidden category with
  | Ok b => b
  | Raise _ => false
  end.

(** The group with its categories replaced by the visible ones, in their
    order. *)
Definition strip (group : json) : json :=
  match setitem group "categories"
          (JArr (List.filter visible (categories_of group))) with
  | Ok group' => group'
  | Raise _ => group
  end.

(** [filter] keeps the group: [__valid_category_group] is a non-zero
    length. *)
Definition retained (group : json) : bool :=
  match __valid_category_group group with
  | Ok n => negb (n =? 0)
  | Raise _ => false
  end.

(** The category carries a [hidden] flag. *)
Definition has_flag (category : json) : Prop :=
  ∃ h, getitem category "hidden" = Ok h.

(** The group has an iterable [categories] whose members all carry the
    flag. *)
Definition flagged_group (group : json) : Prop :=
  ∃ cs l, getitem group "categories" = Ok cs ∧ py_iter cs = Ok l ∧
          Forall has_flag l.

(** The dict key a category is indexed under. *)
Definition key_of (category : json) (k : pykey) : Prop :=
  ∃ n, getitem category "name" = Ok n ∧ hash_key n = Ok k.

(** [ids] indexes the categories [cats]: every entry comes from one of
    them, and each of them has an entry under its name. *)
Definition indexes (cats : list json) (ids : gmap pykey json) : Prop :=
  (∀ k v, ids !! k = Some v →
          ∃ c, c ∈ cats ∧ key_of c k ∧ getitem c "id" = Ok v) ∧
  (∀ c, c ∈ cats → ∃ k, key_of c k ∧ is_Some (ids !! k)).

(** The groups carried by the last response in the trace: the value of
    [body['data']['category_groups']], iterated. *)
Definition fetched_groups (s : Sys) : option (list json) :=
  match last (trace s) with
  | Some (_, Response r) =>
      match resp_json r with
      | Some body =>
          match (data ←? getitem body "data";
                 groups ←? getitem data "category_groups";
                 py_iter groups) with
          | Ok l => Some l
          | Raise _ => None
          end
      | None => None
      end
  | _ => None
  end.

(** The budget has a name other than [name]. *)
Definition other_name (name : string) (budget : json) : Prop :=
  ∃ n, getitem budget "name" = Ok n ∧ n ≠ JStr name.

(** [__setup_ynab], and with it [__init__], raises [YNABAPIError msg];
    only the content type header has been set by then. *)
Definition setup_failed (env : Env) (credentials_filename : string) (s : Sys)
    (msg : string) : Prop :=
  let s1 := {| self := {| headers := Some content_type;
                          budget_id := budget_id (self s);
                          category_groups := category_groups (self s);
                          category_ids := category_ids (self s) |};
               trace := trace s |} in
  __setup_ynab env credentials_filename s = (Raise (YNABAPIError msg), s1) ∧
  __init__ env credentials_filename s = (Raise (YNABAPIError msg), s1).

(** The invariant of both loops of [__get_ynab_budget_categories]. *)
Definition indexed_so_far (s0 : Sys) (cats : list json) (s : Sys) : Prop :=
  ∃ ids, category_ids (self s) = Some ids ∧ indexes cats ids ∧
         same_but_ids s0 s.

(** C1 as the specification words it: the keys of [category_ids] are
    exactly the names of the categories left in [category_groups]. *)
Definition index_is_visible_names (s : Sys) : Prop :=
  ∀ ids final,
    category_ids (self s) = Some ids →
    category_groups (self s) = Some (JArr final) →
    ∀ k, k ∈ dom ids ↔ ∃ g c, g ∈ final ∧ c ∈ categories_of g ∧ key_of c k.

(** ** A scripted environment *)

(** Concrete surroundings to run the class in: one credentials file, and a
    server that answers the n-th request with the n-th scripted outcome. *)
Module Scenario.

Definition scripted (file : file_outcome) (decoded : option json)
    (answers : list http_outcome) : Env :=
  {| expanduser := λ p, p;
     open_read := λ _, file;
     json_loads := λ _, decoded;
     json_dumps := λ _, "{}";
     py_repr := λ _, "?";
     http := λ tr _, nth (length tr) answers (TransportError "unreachable") |}.

Definition category (name id : string) (hidden : bool) : json :=
  JObj [("id", JStr id); ("name", JStr name); ("hidden", JBool hidden)].

Definition group (name : string) (categories : list json) : json :=
  JObj [("name", JStr name); ("categories", JArr categories)].

Definition credentials : json :=
  JObj [("prefix", JStr "Bearer"); ("key", JStr "abc")].

Definition budgets_body : json :=
  JObj [("data", JObj [("budgets",
     JArr [JObj [("id", JStr "B0"); ("name", JStr "Old Budget")];
           JObj [("id", JStr "B1"); ("name", JStr "My Budget")]])])].

(** A budgets answer without 'My Budget'. *)
Definition old_only : json :=
  JObj [("data", JObj [("budgets",
     JArr [JObj [("id", JStr "B0"); ("name", JStr "Old Budget")]])])].

Definition bills : json :=
  group "Bills" [category "Rent" "c1" false; category "OldCard" "c2" true].

Definition unused : json := group "Unused" [category "X" "c3" true].

Definition master : json :=
  group "Internal Master Category" [category "Inflow" "c4" false].

Definition fetched : list json := [bills; unused; master].

Definition categories_body : json :=
  JObj [("data", JObj [("category_groups", JArr fetched)])].

Definition error_body : json :=
  JObj [("error", JObj [("id", JStr "404.2"); ("name", JStr "resource_not_found");
                        ("detail", JStr "Invalid URL")])].

Definition answer (status : Z) (body : option json) : http_outcome :=
  Response {| status_code := status; resp_json := body |}.

(** Valid credentials, the budget is found, three groups come back. *)
Definition env : Env :=
  scripted (FileText "{}") (Some credentials)
    [answer 200 (Some budgets_body); answer 200 (Some categories_body)].

(** The first request is answered as given. *)
Definition answering (o : http_outcome) : Env :=
  scripted (FileText "{}") (Some credentials) [o].

(** The credentials file is as given. *)
Definition with_file (file : file_outcome) (decoded : option json) : Env :=
  scripted file decoded [].

(** An object after a successful [__setup_ynab], nothing sent so far. *)
Definition ready : Sys :=
  {| self := {| headers := Some (content_type ++ [("Authorization", "Bearer abc")]);
                budget_id := None; category_groups := None;
                category_ids := None |};
     trace := [] |}.

Definition auth : list (string * string) :=
  content_type ++ [("Authorization", "Bearer abc")].

End Scenario.

(** ** Vocabulary for the rest of the class *)

(** The value is a [str]. *)
Definition is_str (o : json) : bool :=
  match o with
  | JStr _ => true
  | _ => false
  end.

(** Decoded credentials on which the [try] block of [__setup_ynab] meets
    a type error before any missing key: not a dict, or a [prefix] that is
    not a [str], or a [str] prefix with a [key] that is not a [str]. *)
Definition ill_typed_credentials (credentials : json) : bool :=
  match credentials with
  | JObj items =>
      match assoc "prefix" items with
      | Some prefix =>
          if is_str prefix then
            match assoc "key" items with
            | Some key => negb (is_str key)
            | None => false
            end
          else true
      | None => false
      end
  | _ => true
  end.

(** The state after [self.headers = h]. *)
Definition with_headers (s : Sys) (h : list (string * string)) : Sys :=
  {| self := {| headers := Some h; budget_id := budget_id (self s);
                category_groups := category_groups (self s);
                category_ids := category_ids (self s) |};
     trace := trace s |}.

(** The headers built from a prefix and a key. *)
Definition authorized (prefix key : string) : list (string * string) :=
  [("Content-Type", "application/json");
   ("Authorization", prefix +:+ " " +:+ key)].

(** One pass of the indexing loop body, as a function on the dict: the
    category is stored under its name when it has an id and a hashable
    name. *)
Definition index_step (ids : gmap pykey json) (category : json)
    : gmap pykey json :=
  match getitem category "id",
        (n ←? getitem category "name"; hash_key n) with
  | Ok id, Ok k => <[k := id]> ids
  | _, _ => ids
  end.

(** The dict the two indexing loops build over the categories [cats]. *)
Definition index_of (cats : list json) : gmap pykey json :=
  fold_left index_step cats ∅.

(** The category can be indexed and filtered: it has an id, a hashable
    name and a hidden flag. *)
Definition well_formed_category (category : json) : Prop :=
  (∃ id, getitem category "id" = Ok id) ∧
  (∃ k, key_of category k) ∧
  has_flag category.

(** The group has a list of well-formed categories. *)
Definition well_formed_group (group : json) : Prop :=
  ∃ cs, getitem group "categories" = Ok (JArr cs) ∧
        Forall well_formed_category cs.

(** What [group] goes through in one pass of the loop of
    [__remove_hidden_categories], up to the store. *)
Definition strip_result (group : json) : result json :=
  categories ←? getitem group "categories";
  kept ←? py_filter not_hidden categories;
  setitem group "categories" (JArr kept).

(** The two requests of a construction. *)
Definition budgets_request (env : Env) (h : list (string * string)) : request :=
  request_of env h (Get "/budgets").

Definition categories_request (env : Env) (h : list (string * string))
    (id : json) : request :=
  request_of env h (Get ("/budgets/" +:+ py_str env id +:+ "/categories")).

(** [__remove_hidden_categories] followed by
    [__remove_unused_category_groups], as [__init__] ends. *)
Definition cleanup : M unit :=
  let* _ := __remove_hidden_categories in
  __remove_unused_category_groups.

(** ** Variants of the scenario *)

Module Variants.

Import Scenario.

(** An error body without [detail]. *)
Definition short_error_body : json :=
  JObj [("error", JObj [("id", JStr "500"); ("name", JStr "internal_error")])].

(** A budgets answer whose first entry has no [name]. *)
Definition nameless_first : json :=
  JObj [("data", JObj [("budgets",
     JArr [JObj [("id", JStr "B0")];
           JObj [("id", JStr "B1"); ("name", JStr "My Budget")]])])].

(** Two groups with a category called Rent each. *)
Definition twin_groups : list json :=
  [group "Old" [category "Rent" "c1" true];
   group "New" [category "Rent" "c9" false]].

Definition twins : Env :=
  scripted (FileText "{}") (Some credentials)
    [answer 200 (Some budgets_body);
     answer 200 (Some (JObj [("data", JObj [("category_groups", JArr twin_groups)])]))].

(** No 'My Budget' among the budgets. *)
Definition elsewhere : Env := answering (answer 200 (Some old_only)).

(** A credentials file whose bytes do not decode as text. *)
Definition undecodable : Env := with_file FileUndecodable None.

(** A credentials file holding [{"prefix": 1}]. *)
Definition numeric_prefix : Env :=
  with_file (FileText "{}") (Some (JObj [("prefix", JInt 1)])).

(** A fresh object, before [__init__]. *)
Definition fresh : Sys := {| self := blank; trace := [] |}.

(** A category without the [hidden] flag, in the second group. *)
Definition flagless : json :=
  group "Broken" [category "Gas" "c5" false;
                  JObj [("id", JStr "c6"); ("name", JStr "Water")]].

End Variants.

(** ** Two claims in the specification's own words *)


(** [__setup_ynab] fails with the client error, whatever its message. *)
Definition raises_client_error (env : Env) (credentials_filename : string)
    (s : Sys) : Prop :=
  ∃ msg, (__setup_ynab env credentials_filename s).1 = Raise (YNABAPIError msg).

(** C7 as the specification words it: a file that cannot be opened,
    content that is not valid JSON, and a credentials object without
    [prefix] or without [key] all end in the client error. *)
Definition credential_failures_uniform (env : Env)
    (credentials_filename : string) (s : Sys) : Prop :=
  let path := expanduser env credentials_filename in
  (∀ err, open_read env path = FileError err →
     raises_client_error env credentials_filename s) ∧
  (open_read env path = FileUndecodable ∨
   (∃ text, open_read env path = FileText text ∧ json_loads env text = None) →
     raises_client_error env credentials_filename s) ∧
  (∀ text items, open_read env path = FileText text →
     json_loads env text = Some (JObj items) →
     assoc "prefix" items = None ∨ assoc "key" items = None →
     raises_client_error env credentials_filename s).

(** * Properties *)

(** ** The monad *)

Lemma rbind_ok {A B} (r : result A) (k : A → result B) b :
  rbind r k = Ok b → ∃ a, r = Ok a ∧ k a = Ok b.
Proof. destruct r as [a | e]; simpl; [eauto | discriminate]. Qed.

Lemma bind_ok {A B} (m : M A) (k : A → M B) s b s' :
  bind m k s = (Ok b, s') → ∃ a s1, m s = (Ok a, s1) ∧ k a s1 = (Ok b, s').
Proof.
  unfold bind. destruct (m s) as [[a | e] s1]; [eauto | discriminate].
Qed.

Lemma lift_ok {A} (r : result A) s a s' :
  lift r s = (Ok a, s') → r = Ok a ∧ s' = s.
Proof. unfold lift. intros [= -> ->]. done. Qed.

Lemma ret_ok {A} (x : A) s a s' : ret x s = (Ok a, s') → a = x ∧ s' = s.
Proof. unfold ret. intros [= -> ->]. done. Qed.

Lemma attr_ok {A} name (field : YNABAPI → option A) s a s' :
  attr name field s = (Ok a, s') → field (self s) = Some a ∧ s' = s.
Proof.
  unfold attr. destruct (field (self s)); intros [= <- <-]; done.
Qed.

Lemma bind_run {A B} (m : M A) (k : A → M B) s a s1 :
  m s = (Ok a, s1) → bind m k s = k a s1.
Proof. unfold bind. by intros ->. Qed.

Lemma bind_raise {A B} (m : M A) (k : A → M B) s e s1 :
  m s = (Raise e, s1) → bind m k s = (Raise e, s1).
Proof. unfold bind. by intros ->. Qed.

Lemma attr_run {A} name (field : YNABAPI → option A) s a :
  field (self s) = Some a → attr name field s = (Ok a, s).
Proof. unfold attr. by intros ->. Qed.

(** Invert every successful [bind], [lift], [attr] and [ret] in sight. *)
Ltac inv_ok :=
  repeat match goal with
  | H : bind _ _ _ = (Ok _, _) |- _ =>
      let a := fresh "a" in let s := fresh "s" in
      let H1 := fresh "H" in let H2 := fresh "H" in
      apply bind_ok in H as (a & s & H1 & H2)
  | H : lift _ _ = (Ok _, _) |- _ =>
      let H1 := fresh "H" in
      apply lift_ok in H as [H1 ->]
  | H : attr _ _ _ = (Ok _, _) |- _ =>
      let H1 := fresh "H" in
      apply attr_ok in H as [H1 ->]
  | H : ret _ _ = (Ok _, _) |- _ => apply ret_ok in H as [-> ->]
  | H : rbind _ _ = Ok _ |- _ =>
      let a := fresh "a" in
      let H1 := fresh "H" in let H2 := fresh "H" in
      apply rbind_ok in H as (a & H1 & H2)
  | H : raise _ _ = (Ok _, _) |- _ => discriminate H
  end.

(** ** The request primitives *)

Section Primitives.

Variable env : Env.

(** Both primitives read the headers, send one request and hand what
    comes back to the same two continuations. *)
Lemma run_call_unfold c s h :
  headers (self s) = Some h →
  run_call env c s =
    match http env (trace s) (request_of env h c) with
    | TransportError err =>
        (Raise (YNABAPIError ("YNAB API error:" +:+ nl +:+ err)),
         logged s (request_of env h c) (TransportError err))
    | Response r =>
        __check_api_result env r (logged s (request_of env h c) (Response r))
    end.
Proof.
  intros Hh. destruct c as [url | url data]; simpl;
    unfold api_get, api_patch;
    rewrite (bind_run _ _ _ _ _ (attr_run "headers" headers s h Hh));
    unfold bind, send, logged; simpl;
    match goal with |- context [http env ?t ?r] => destruct (http env t r) end;
    reflexivity.
Qed.

Lemma check_ok_status r data s :
  resp_json r = Some data → ok r = true →
  __check_api_result env r s = (Ok data, s).
Proof. unfold __check_api_result. intros -> ->. reflexivity. Qed.

Lemma ok_of_2xx r : is_2xx r → ok r = true.
Proof.
  unfold is_2xx, ok. intros [Hlo Hhi].
  destruct (400 <=? status_code r) eqn:E; [| reflexivity].
  apply Z.leb_le in E. lia.
Qed.

(** [result.ok] is false for the 4xx and 5xx statuses and for no other. *)
Lemma ok_false_iff r : ok r = false ↔ 400 <= status_code r < 600.
Proof.
  unfold ok. rewrite negb_false_iff, andb_true_iff, Z.leb_le, Z.ltb_lt. done.
Qed.

(** C8: when the transport succeeds and the status is 2xx, [api_get] and
    [api_patch] return the parsed JSON body as it is: the value of
    [result.json()], with nothing checked or changed in it; exactly one
    exchange is added to the trace and the object is untouched. *)
Theorem success_returns_parsed_body (c : api_call) (s : Sys)
    (h : list (string * string)) (r : response) (body : json) :
  headers (self s) = Some h →
  http env (trace s) (request_of env h c) = Response r →
  is_2xx r →
  resp_json r = Some body →
  run_call env c s = (Ok body, logged s (request_of env h c) (Response r)).
Proof.
  intros Hh Hhttp H2xx Hbody.
  rewrite (run_call_unfold c s h Hh), Hhttp.
  apply check_ok_status; [done | by apply ok_of_2xx].
Qed.


(** C9: when the transport raises a request exception, [api_get] and
    [api_patch] raise [YNABAPIError] whose message wraps the exception's
    own, and the call has made exactly one request: the trace grows by
    that single failed exchange. *)
Theorem transport_failure_wrapped_once (c : api_call) (s : Sys)
    (h : list (string * string)) (err : string) :
  headers (self s) = Some h →
  http env (trace s) (request_of env h c) = TransportError err →
  ∃ s', run_call env c s =
          (Raise (YNABAPIError ("YNAB API error:" +:+ nl +:+ err)), s') ∧
        self s' = self s ∧
        trace s' = trace s ++ [(request_of env h c, TransportError err)] ∧
        length (trace s') = S (length (trace s)).
Proof.
  intros Hh Hhttp. eexists. split.
  - rewrite (run_call_unfold c s h Hh), Hhttp. reflexivity.
  - simpl. repeat split. rewrite length_app. simpl. lia.
Qed.

(** C10: the body is decoded before the status is looked at, so a body
    that is not JSON makes [api_get] and [api_patch] fail with the
    decoder's exception whatever the status is, a success status
    included; that exception is not a [YNABAPIError]. *)
Theorem undecodable_body_escapes (c : api_call) (s : Sys)
    (h : list (string * string)) (r : response) :
  headers (self s) = Some h →
  http env (trace s) (request_of env h c) = Response r →
  resp_json r = None →
  run_call env c s =
    (Raise JSONDecodeError, logged s (request_of env h c) (Response r)) ∧
  ∀ msg, JSONDecodeError ≠ YNABAPIError msg.
Proof.
  intros Hh Hhttp Hbody. split; [| discriminate].
  rewrite (run_call_unfold c s h Hh), Hhttp.
  unfold __check_api_result. rewrite Hbody. reflexivity.
Qed.

End Primitives.

(** ** Credentials *)

Section Credentials.

Variable env : Env.

Lemma setup_failed_intro credentials_filename s msg s1 :
  __setup_ynab env credentials_filename s = (Raise (YNABAPIError msg), s1) →
  s1 = {| self := {| headers := Some content_type;
                     budget_id := budget_id (self s);
                     category_groups := category_groups (self s);
                     category_ids := category_ids (self s) |};
          trace := trace s |} →
  setup_failed env credentials_filename s msg.
Proof.
  intros H ->. split; [done |].
  unfold __init__. by apply bind_raise.
Qed.

(** C7, as the code has it: loading the credentials fails with a
    [YNABAPIError] whose message depends on what went wrong: a file that
    cannot be opened or read, by an I/O error, gives the text of that
    error; content that reads as text and is not JSON gives the path of
    the credentials file; an object without [prefix], or with a string
    [prefix] and without [key], gives the name of the missing field and
    the path.  Construction fails with the same error. *)
Theorem credential_failures_reported (credentials_filename : string) (s : Sys) :
  let path := expanduser env credentials_filename in
  (∀ err, open_read env path = FileError err →
     setup_failed env credentials_filename s
       ("Unable to open credentials file:" +:+ nl +:+ err)) ∧
  (∀ text, open_read env path = FileText text →
     json_loads env text = None →
     setup_failed env credentials_filename s
       ("Unable to parse credentials file " +:+ credentials_filename)) ∧
  (∀ text items, open_read env path = FileText text →
     json_loads env text = Some (JObj items) →
     assoc "prefix" items = None →
     setup_failed env credentials_filename s
       ("Expected key 'prefix' not found in credentials file "
        +:+ credentials_filename)) ∧
  (∀ text items prefix, open_read env path = FileText text →
     json_loads env text = Some (JObj items) →
     assoc "prefix" items = Some (JStr prefix) →
     assoc "key" items = None →
     setup_failed env credentials_filename s
       ("Expected key 'key' not found in credentials file "
        +:+ credentials_filename)).
Proof.
  intros path. subst path. split; [| split; [| split]].
  - intros err Hopen. eapply setup_failed_intro; [| reflexivity].
    unfold __setup_ynab, bind, set_headers, update. simpl.
    rewrite Hopen. reflexivity.
  - intros text Hopen Hload. eapply setup_failed_intro; [| reflexivity].
    unfold __setup_ynab, bind, set_headers, update. simpl.
    rewrite Hopen, Hload. reflexivity.
  - intros text items Hopen Hload Hprefix.
    eapply setup_failed_intro; [| reflexivity].
    unfold __setup_ynab, bind, set_headers, update. simpl.
    rewrite Hopen, Hload. unfold authorization. simpl.
    rewrite Hprefix. reflexivity.
  - intros text items prefix Hopen Hload Hprefix Hkey.
    eapply setup_failed_intro; [| reflexivity].
    unfold __setup_ynab, bind, set_headers, update. simpl.
    rewrite Hopen, Hload. unfold authorization. simpl.
    rewrite Hprefix. simpl. rewrite Hkey. reflexivity.
Qed.

End Credentials.

(** ** Budget resolution *)

Section Budget.

Variable env : Env.

Lemma eq_str_true n name : eq_str n name = true ↔ n = JStr name.
Proof.
  destruct n; simpl; try (split; [discriminate | congruence]).
  rewrite String.eqb_eq. split; congruence.
Qed.

Lemma eq_str_false n name : eq_str n name = false ↔ n ≠ JStr name.
Proof.
  rewrite <- eq_str_true. destruct (eq_str n name); split; congruence.
Qed.

(** The loop fails when every budget carries another name. *)
Lemma find_budget_none name budgets s :
  Forall (other_name name) budgets →
  find_budget name budgets s =
    (Raise (YNABAPIError ("Budget '" +:+ name +:+ "' not found")), s).
Proof.
  induction 1 as [| b rest (n & Hn & Hne) _ IH]; [reflexivity |].
  simpl. unfold bind, lift. rewrite Hn.
  apply eq_str_false in Hne. rewrite Hne. exact IH.
Qed.

(** The loop stops at the first budget with the name. *)
Lemma find_budget_first name before b after id s :
  Forall (other_name name) before →
  getitem b "name" = Ok (JStr name) →
  getitem b "id" = Ok id →
  find_budget name (before ++ b :: after) s = (Ok tt, with_budget_id s id).
Proof.
  intros Hbefore Hname Hid.
  induction Hbefore as [| x rest (n & Hn & Hne) _ IH]; simpl.
  - unfold bind, lift. rewrite Hname. simpl. rewrite String.eqb_refl.
    rewrite Hid. reflexivity.
  - unfold bind at 1. unfold lift at 1. rewrite Hn.
    apply eq_str_false in Hne. rewrite Hne. exact IH.
Qed.

(** C6: budget resolution asks the list-budgets endpoint once and scans
    the budgets of the answer in order.  The id of the first budget whose
    name equals the requested one is stored; when every budget has another
    name the method raises [YNABAPIError] "Budget '<name>' not found" and
    the object is left as it was, so no budget id is stored. *)
Theorem budget_resolution (name : string) (s : Sys)
    (h : list (string * string)) (r : response)
    (summary data : json) (budgets : list json) :
  headers (self s) = Some h →
  http env (trace s) (request_of env h (Get "/budgets")) = Response r →
  ok r = true →
  resp_json r = Some summary →
  getitem summary "data" = Ok data →
  getitem data "budgets" = Ok (JArr budgets) →
  let s1 := logged s (request_of env h (Get "/budgets")) (Response r) in
  (∀ before b after id,
     budgets = before ++ b :: after →
     Forall (other_name name) before →
     getitem b "name" = Ok (JStr name) →
     getitem b "id" = Ok id →
     __get_ynab_budget_id env name s = (Ok tt, with_budget_id s1 id)) ∧
  (Forall (other_name name) budgets →
     __get_ynab_budget_id env name s =
       (Raise (YNABAPIError ("Budget '" +:+ name +:+ "' not found")), s1) ∧
     budget_id (self s1) = budget_id (self s)).
Proof.
  intros Hh Hhttp Hok Hbody Hdata Hbudgets s1.
  assert (Hget : api_get env "/budgets" s = (Ok summary, s1)).
  { change (run_call env (Get "/budgets") s = (Ok summary, s1)).
    rewrite (run_call_unfold env _ s h Hh), Hhttp.
    by apply check_ok_status. }
  assert (Hrun : ∀ l, budgets = l →
            __get_ynab_budget_id env name s = find_budget name l s1).
  { intros l <-. unfold __get_ynab_budget_id.
    rewrite (bind_run _ _ _ _ _ Hget).
    unfold bind at 1. unfold lift at 1. rewrite Hdata.
    unfold bind at 1. unfold lift at 1. rewrite Hbudgets.
    reflexivity. }
  split.
  - intros before b after id -> Hbefore Hname Hid.
    rewrite (Hrun _ eq_refl). by apply find_budget_first.
  - intros Hall. split; [| reflexivity].
    rewrite (Hrun _ eq_refl). by apply find_budget_none.
Qed.

End Budget.

(** ** Dicts, filters and the two cleanup passes *)

Lemma assoc_set_same k v items : assoc k (assoc_set k v items) = Some v.
Proof.
  induction items as [| [k' v'] rest IH]; simpl.
  - by rewrite String.eqb_refl.
  - destruct (String.eqb k k') eqn:E; simpl.
    + by rewrite String.eqb_refl.
    + by rewrite E.
Qed.

Lemma assoc_set_other k k' v items :
  k' ≠ k → assoc k' (assoc_set k v items) = assoc k' items.
Proof.
  intros Hne. induction items as [| [k0 v0] rest IH]; simpl.
  - destruct (String.eqb k' k) eqn:E; [| done].
    apply String.eqb_eq in E. done.
  - destruct (String.eqb k k0) eqn:E; simpl.
    + apply String.eqb_eq in E. subst k0.
      destruct (String.eqb k' k) eqn:E'; [| done].
      apply String.eqb_eq in E'. done.
    + by rewrite IH.
Qed.

Lemma getitem_ok_obj o k v : getitem o k = Ok v → ∃ items, o = JObj items ∧ assoc k items = Some v.
Proof.
  destruct o; simpl; try discriminate.
  destruct (assoc k items) eqn:E; intros [= <-]. eauto.
Qed.

Lemma filter_list_ok pred l kept :
  filter_list pred l = Ok kept →
  Forall (λ x, ∃ b, pred x = Ok b) l ∧
  kept = List.filter (λ x, match pred x with Ok b => b | Raise _ => false end) l.
Proof.
  revert kept. induction l as [| x rest IH]; simpl; intros kept H.
  - injection H as <-. split; [constructor | done].
  - apply rbind_ok in H as (b & Hb & H).
    apply rbind_ok in H as (kept' & Hrest & H). injection H as <-.
    destruct (IH _ Hrest) as [Hall ->].
    split; [constructor; eauto |]. by rewrite Hb.
Qed.

Lemma filter_list_run pred l :
  Forall (λ x, ∃ b, pred x = Ok b) l →
  filter_list pred l =
    Ok (List.filter (λ x, match pred x with Ok b => b | Raise _ => false end) l).
Proof.
  induction 1 as [| x rest [b Hb] _ IH]; simpl; [done |].
  rewrite Hb, IH. simpl. done.
Qed.

Lemma filter_list_not_hidden l kept :
  filter_list not_hidden l = Ok kept →
  Forall has_flag l ∧ kept = List.filter visible l.
Proof.
  intros H. apply filter_list_ok in H as [Hall ->]. split; [| done].
  eapply Forall_impl; [exact Hall |]. intros x [b Hb].
  apply rbind_ok in Hb as (h & Hh & _). by exists h.
Qed.

Lemma filter_list_flagged l :
  Forall has_flag l → filter_list not_hidden l = Ok (List.filter visible l).
Proof.
  intros Hall. apply (filter_list_run not_hidden).
  eapply Forall_impl; [exact Hall |]. intros x [h Hh].
  unfold not_hidden. rewrite Hh. simpl. eauto.
Qed.

Lemma strip_of group cs l :
  getitem group "categories" = Ok cs → py_iter cs = Ok l →
  setitem group "categories" (JArr (List.filter visible l)) = Ok (strip group) ∧
  categories_of group = l ∧
  getitem (strip group) "categories" = Ok (JArr (List.filter visible l)).
Proof.
  intros Hcs Hl.
  assert (Hcat : categories_of group = l).
  { unfold categories_of. rewrite Hcs. simpl. by rewrite Hl. }
  destruct (getitem_ok_obj _ _ _ Hcs) as (items & -> & _).
  unfold strip. rewrite Hcat. simpl. rewrite assoc_set_same. done.
Qed.

Lemma with_groups_same s v :
  category_groups (self s) = Some v → with_groups s v = s.
Proof. destruct s as [[h b g i] t]. simpl. by intros ->. Qed.

Lemma store_group_run i group l s :
  category_groups (self s) = Some (JArr l) →
  store_group i group s = (Ok tt, with_groups s (JArr (<[i := group]> l))).
Proof.
  intros H. unfold store_group.
  rewrite (bind_run _ _ _ _ _ (attr_run "category_groups" category_groups s _ H)).
  reflexivity.
Qed.

Lemma insert_middle (done rest : list json) (g g' : json) :
  <[length done := g']> (done ++ g :: rest) = (done ++ [g']) ++ rest.
Proof.
  rewrite <- (Nat.add_0_r (length done)).
  rewrite insert_app_r. simpl. by rewrite <- app_assoc.
Qed.

Lemma strip_groups_ok rest : ∀ done s s',
  category_groups (self s) = Some (JArr (done ++ rest)) →
  strip_groups (length done) rest s = (Ok tt, s') →
  Forall flagged_group rest ∧
  s' = with_groups s (JArr (done ++ map strip rest)).
Proof.
  induction rest as [| g rest IH]; intros done s s' Hg Hrun.
  - apply ret_ok in Hrun as [_ ->]. split; [constructor |].
    symmetry. by apply with_groups_same.
  - simpl in Hrun.
    apply bind_ok in Hrun as (cs & s1 & Hcs & Hrun).
    apply lift_ok in Hcs as [Hcs ->].
    apply bind_ok in Hrun as (kept & s1 & Hkept & Hrun).
    apply lift_ok in Hkept as [Hkept ->].
    apply bind_ok in Hrun as (g' & s1 & Hset & Hrun).
    apply lift_ok in Hset as [Hset ->].
    apply bind_ok in Hrun as ([] & s1 & Hstore & Hrun).
    rewrite (store_group_run _ _ _ _ Hg) in Hstore.
    injection Hstore as <-.
    unfold py_filter in Hkept.
    apply rbind_ok in Hkept as (l & Hl & Hkept).
    apply filter_list_not_hidden in Hkept as [Hflags ->].
    destruct (strip_of _ _ _ Hcs Hl) as (Hstrip & _ & _).
    rewrite Hstrip in Hset. injection Hset as <-.
    rewrite insert_middle in Hrun.
    replace (S (length done)) with (length (done ++ [strip g])) in Hrun
      by (rewrite length_app; simpl; lia).
    apply IH in Hrun as [Hrest ->]; [| done].
    split.
    + constructor; [| done]. by exists cs, l.
    + simpl. unfold with_groups. simpl. by rewrite <- app_assoc.
Qed.

Lemma strip_groups_run rest : ∀ done s,
  category_groups (self s) = Some (JArr (done ++ rest)) →
  Forall flagged_group rest →
  strip_groups (length done) rest s =
    (Ok tt, with_groups s (JArr (done ++ map strip rest))).
Proof.
  induction rest as [| g rest IH]; intros done s Hg Hall.
  - simpl. unfold ret. by rewrite with_groups_same.
  - apply Forall_cons in Hall as [(cs & l & Hcs & Hl & Hflags) Hall].
    destruct (strip_of _ _ _ Hcs Hl) as (Hstrip & _ & _).
    simpl.
    unfold bind at 1. unfold lift at 1. rewrite Hcs.
    unfold bind at 1. unfold lift at 1. unfold py_filter. rewrite Hl. simpl.
    rewrite (filter_list_flagged _ Hflags).
    unfold bind at 1. unfold lift at 1. rewrite Hstrip.
    rewrite (bind_run _ _ _ _ _ (store_group_run _ _ _ _ Hg)).
    rewrite insert_middle.
    replace (S (length done)) with (length (done ++ [strip g]))
      by (rewrite length_app; simpl; lia).
    rewrite IH; [| done | done].
    unfold with_groups. simpl. by rewrite <- app_assoc.
Qed.

Lemma strip_groups_strings i x rest s s' :
  (∀ cs, getitem x "categories" ≠ Ok cs) →
  strip_groups i (x :: rest) s = (Ok tt, s') → False.
Proof.
  intros Hx Hrun. simpl in Hrun.
  apply bind_ok in Hrun as (cs & s1 & Hcs & _).
  apply lift_ok in Hcs as [Hcs _]. by apply (Hx cs).
Qed.

Lemma remove_hidden_ok s s' groups gs :
  category_groups (self s) = Some groups →
  py_iter groups = Ok gs →
  __remove_hidden_categories s = (Ok tt, s') →
  Forall flagged_group gs ∧
  ∃ groups', s' = with_groups s groups' ∧ py_iter groups' = Ok (map strip gs).
Proof.
  intros Hg Hiter Hrun. unfold __remove_hidden_categories in Hrun.
  rewrite (bind_run _ _ _ _ _ (attr_run "category_groups" category_groups s _ Hg)) in Hrun.
  unfold bind at 1 in Hrun. unfold lift at 1 in Hrun. rewrite Hiter in Hrun.
  destruct groups as [| | | | str | l | items]; try discriminate Hiter.
  - (* a str: its characters are not subscriptable *)
    destruct gs as [| x rest].
    + apply ret_ok in Hrun as [_ ->]. split; [constructor |].
      exists (JStr str). split; [by rewrite with_groups_same | done].
    + exfalso. eapply strip_groups_strings; [| exact Hrun].
      simpl in Hiter. destruct (py_chars str); [discriminate |].
      injection Hiter as <- _. discriminate.
  - injection Hiter as ->.
    apply (strip_groups_ok gs []) in Hrun as [Hall ->]; [| done].
    split; [done |]. by exists (JArr (map strip gs)).
  - (* a dict: its keys are not subscriptable *)
    destruct gs as [| x rest].
    + apply ret_ok in Hrun as [_ ->]. split; [constructor |].
      exists (JObj items). split; [by rewrite with_groups_same | done].
    + exfalso. eapply strip_groups_strings; [| exact Hrun].
      simpl in Hiter. destruct items; [discriminate |].
      injection Hiter as <- _. discriminate.
Qed.

Lemma retained_filter l :
  List.filter
    (λ x, match (n ←? __valid_category_group x; Ok (negb (n =? 0))) with
          | Ok b => b
          | Raise _ => false
          end) l = List.filter retained l.
Proof.
  apply List.filter_ext. intros g. unfold retained.
  by destruct (__valid_category_group g).
Qed.

Lemma remove_unused_ok s s' groups l :
  category_groups (self s) = Some groups →
  py_iter groups = Ok l →
  __remove_unused_category_groups s = (Ok tt, s') →
  Forall (λ g, ∃ n, __valid_category_group g = Ok n) l ∧
  s' = with_groups s (JArr (List.filter retained l)).
Proof.
  intros Hg Hiter Hrun. unfold __remove_unused_category_groups in Hrun.
  rewrite (bind_run _ _ _ _ _ (attr_run "category_groups" category_groups s _ Hg)) in Hrun.
  apply bind_ok in Hrun as (kept & s1 & Hkept & Hrun).
  apply lift_ok in Hkept as [Hkept ->].
  unfold py_filter in Hkept. rewrite Hiter in Hkept. simpl in Hkept.
  apply filter_list_ok in Hkept as [Hall ->].
  rewrite retained_filter in Hrun.
  injection Hrun as <-. split; [| done].
  eapply Forall_impl; [exact Hall |]. intros g [b Hb].
  apply rbind_ok in Hb as (n & Hn & _). eauto.
Qed.

Lemma remove_unused_run s groups l :
  category_groups (self s) = Some groups →
  py_iter groups = Ok l →
  Forall (λ g, ∃ n, __valid_category_group g = Ok n) l →
  __remove_unused_category_groups s =
    (Ok tt, with_groups s (JArr (List.filter retained l))).
Proof.
  intros Hg Hiter Hall. unfold __remove_unused_category_groups.
  rewrite (bind_run _ _ _ _ _ (attr_run "category_groups" category_groups s _ Hg)).
  unfold bind, lift, py_filter. rewrite Hiter. simpl.
  rewrite filter_list_run.
  - by rewrite retained_filter.
  - eapply Forall_impl; [exact Hall |]. intros g [n Hn]. rewrite Hn. simpl. eauto.
Qed.

Lemma for_each_ok {A} (body : A → M unit) (I : list A → Sys → Prop) l :
  (∀ done x s1 s2, I done s1 → body x s1 = (Ok tt, s2) → I (done ++ [x]) s2) →
  ∀ done s s', I done s → for_each l body s = (Ok tt, s') → I (done ++ l) s'.
Proof.
  intros Hstep. induction l as [| x rest IH]; intros done s s' HI Hrun.
  - apply ret_ok in Hrun as [_ ->]. by rewrite app_nil_r.
  - simpl in Hrun. apply bind_ok in Hrun as ([] & s1 & Hx & Hrun).
    replace (done ++ x :: rest) with ((done ++ [x]) ++ rest)
      by (by rewrite <- app_assoc).
    eapply IH; [| exact Hrun]. eapply Hstep; eauto.
Qed.

Lemma index_category_ok c s s' :
  index_category c s = (Ok tt, s') →
  ∃ ids id k, category_ids (self s) = Some ids ∧ getitem c "id" = Ok id ∧
              key_of c k ∧ s' = with_ids s (<[k := id]> ids).
Proof.
  intros Hrun. unfold index_category in Hrun.
  apply bind_ok in Hrun as (id & s1 & Hid & Hrun).
  apply lift_ok in Hid as [Hid ->].
  apply bind_ok in Hrun as (ids & s1 & Hids & Hrun).
  apply attr_ok in Hids as [Hids ->].
  apply bind_ok in Hrun as (n & s1 & Hn & Hrun).
  apply lift_ok in Hn as [Hn ->].
  apply bind_ok in Hrun as (k & s1 & Hk & Hrun).
  apply lift_ok in Hk as [Hk ->].
  injection Hrun as <-.
  exists ids, id, k. repeat split; try done. by exists n.
Qed.

Lemma indexes_nil : indexes [] ∅.
Proof.
  split.
  - intros k v H. by rewrite lookup_empty in H.
  - intros c H. by apply elem_of_nil in H.
Qed.

Lemma indexes_snoc cats ids c k id :
  indexes cats ids → key_of c k → getitem c "id" = Ok id →
  indexes (cats ++ [c]) (<[k := id]> ids).
Proof.
  intros [Hfrom Hto] Hk Hid. split.
  - intros k' v Hlook. destruct (decide (k = k')) as [<- | Hne].
    + rewrite lookup_insert_eq in Hlook. injection Hlook as <-.
      exists c. split; [| done]. apply elem_of_app. right. by apply list_elem_of_singleton.
    + rewrite lookup_insert_ne in Hlook by done.
      destruct (Hfrom _ _ Hlook) as (c' & Hin & Hrest).
      exists c'. split; [| done]. apply elem_of_app. by left.
  - intros c' Hin. apply elem_of_app in Hin as [Hin | Hin].
    + destruct (Hto _ Hin) as (k' & Hk' & Hsome).
      exists k'. split; [done |]. rewrite lookup_insert_is_Some.
      destruct (decide (k = k')); auto.
    + apply list_elem_of_singleton in Hin as ->.
      exists k. split; [done |]. rewrite lookup_insert_eq. eauto.
Qed.

Lemma index_categories_ok s0 base l s s' :
  indexed_so_far s0 base s →
  for_each l index_category s = (Ok tt, s') →
  indexed_so_far s0 (base ++ l) s'.
Proof.
  intros Hinv Hrun.
  apply (for_each_ok index_category (λ done, indexed_so_far s0 (base ++ done)) l)
    with (done := []) (s := s) (s' := s') in Hrun.
  - exact Hrun.
  - clear. intros done x s1 s2 (ids & Hids & Hidx & Hsame) Hx.
    apply index_category_ok in Hx as (ids' & id & k & Hids' & Hid & Hk & ->).
    rewrite Hids in Hids'. injection Hids' as <-.
    exists (<[k := id]> ids). split; [done |]. split.
    + rewrite app_assoc. by apply indexes_snoc.
    + exact Hsame.
  - by rewrite app_nil_r.
Qed.

Lemma index_groups_ok s0 gs s s' :
  indexed_so_far s0 [] s →
  for_each gs index_group s = (Ok tt, s') →
  indexed_so_far s0 (flat_map categories_of gs) s'.
Proof.
  intros Hinv Hrun.
  apply (for_each_ok index_group
           (λ done, indexed_so_far s0 (flat_map categories_of done)) gs)
    with (done := []) (s := s) (s' := s') in Hrun; [done | | done].
  clear. intros done g s1 s2 Hinv Hg.
  unfold index_group in Hg.
  apply bind_ok in Hg as (cs & s & Hcs & Hg). apply lift_ok in Hcs as [Hcs ->].
  apply bind_ok in Hg as (l & s & Hl & Hg). apply lift_ok in Hl as [Hl ->].
  rewrite flat_map_app. simpl. rewrite app_nil_r.
  replace (categories_of g) with l.
  - by eapply index_categories_ok.
  - unfold categories_of. rewrite Hcs. simpl. by rewrite Hl.
Qed.

Section Fetch.

Variable env : Env.

Lemma check_api_result_ok r s body s' :
  __check_api_result env r s = (Ok body, s') → resp_json r = Some body ∧ s' = s.
Proof.
  unfold __check_api_result. destruct (resp_json r) as [data |]; [| discriminate].
  destruct (negb (ok r)).
  - intros H. exfalso. inv_ok.
  - intros H. apply ret_ok in H as [-> ->]. done.
Qed.

Lemma api_get_ok url s body s' :
  api_get env url s = (Ok body, s') →
  ∃ h r, headers (self s) = Some h ∧
         http env (trace s) (request_of env h (Get url)) = Response r ∧
         resp_json r = Some body ∧
         s' = logged s (request_of env h (Get url)) (Response r).
Proof.
  intros Hrun.
  destruct (headers (self s)) as [h |] eqn:Hh.
  - change (run_call env (Get url) s = (Ok body, s')) in Hrun.
    rewrite (run_call_unfold env _ s h Hh) in Hrun.
    destruct (http env (trace s) (request_of env h (Get url))) as [err | r] eqn:E;
      [discriminate |].
    apply check_api_result_ok in Hrun as [Hbody ->]. by exists h, r.
  - unfold api_get in Hrun. apply bind_ok in Hrun as (h & s1 & Hattr & _).
    apply attr_ok in Hattr as [Hattr _]. congruence.
Qed.

Lemma fetched_groups_logged s req r body data groups gs :
  resp_json r = Some body →
  getitem body "data" = Ok data →
  getitem data "category_groups" = Ok groups →
  py_iter groups = Ok gs →
  fetched_groups (logged s req (Response r)) = Some gs.
Proof.
  intros Hbody Hdata Hgroups Hiter. unfold fetched_groups, logged. simpl.
  rewrite last_snoc, Hbody, Hdata. simpl. rewrite Hgroups. simpl.
  by rewrite Hiter.
Qed.

Lemma get_categories_ok s s' :
  __get_ynab_budget_categories env s = (Ok tt, s') →
  ∃ groups gs ids,
    fetched_groups s' = Some gs ∧
    py_iter groups = Ok gs ∧
    category_groups (self s') = Some groups ∧
    category_ids (self s') = Some ids ∧
    indexes (flat_map categories_of gs) ids.
Proof.
  intros Hrun. unfold __get_ynab_budget_categories in Hrun.
  apply bind_ok in Hrun as (id & s1 & Hid & Hrun). apply attr_ok in Hid as [Hid ->].
  apply bind_ok in Hrun as (body & s1 & Hget & Hrun).
  apply api_get_ok in Hget as (h & r & Hh & Hhttp & Hbody & ->).
  apply bind_ok in Hrun as (data & s1 & Hdata & Hrun).
  apply lift_ok in Hdata as [Hdata ->].
  apply bind_ok in Hrun as (groups & s1 & Hgroups & Hrun).
  apply lift_ok in Hgroups as [Hgroups ->].
  apply bind_ok in Hrun as ([] & s1 & Hset & Hrun). injection Hset as <-.
  apply bind_ok in Hrun as ([] & s2 & Hset & Hrun). injection Hset as <-.
  apply bind_ok in Hrun as (gs & s2 & Hiter & Hrun).
  apply lift_ok in Hiter as [Hiter ->].
  match type of Hrun with for_each _ _ ?s0 = _ =>
    apply (index_groups_ok s0) in Hrun as (ids & Hids & Hidx & Hh' & Hb' & Hg' & Ht')
  end.
  - exists groups, gs, ids.
    split; [| split; [done | split; [exact Hg' | split; done]]].
    pose proof (fetched_groups_logged s
                  (request_of env h
                     (Get ("/budgets/" +:+ py_str env id +:+ "/categories")))
                  r body data groups gs Hbody Hdata Hgroups Hiter) as Hf.
    unfold fetched_groups, logged in Hf. simpl in Hf, Ht'.
    unfold fetched_groups. rewrite Ht'. exact Hf.
  - exists ∅. split; [done |]. split; [apply indexes_nil |]. done.
Qed.

Lemma init_ok credentials_filename s s' :
  __init__ env credentials_filename s = (Ok tt, s') →
  ∃ gs ids,
    fetched_groups s' = Some gs ∧
    Forall flagged_group gs ∧
    category_groups (self s') = Some (JArr (List.filter retained (map strip gs))) ∧
    category_ids (self s') = Some ids ∧
    indexes (flat_map categories_of gs) ids.
Proof.
  intros Hrun. unfold __init__ in Hrun.
  apply bind_ok in Hrun as ([] & s1 & _ & Hrun).
  apply bind_ok in Hrun as ([] & s2 & _ & Hrun).
  apply bind_ok in Hrun as ([] & s3 & Hfetch & Hrun).
  apply bind_ok in Hrun as ([] & s4 & Hhide & Hrun).
  apply get_categories_ok in Hfetch as (groups & gs & ids & Hf & Hiter & Hg & Hids & Hidx).
  apply (remove_hidden_ok _ _ _ _ Hg Hiter) in Hhide as (Hall & groups' & -> & Hiter').
  apply (remove_unused_ok (with_groups s3 groups') _ groups' _ eq_refl Hiter')
    in Hrun as [_ ->].
  exists gs, ids.
  split; [exact Hf |]. split; [exact Hall |]. split; [reflexivity |].
  split; [exact Hids | exact Hidx].
Qed.
End Fetch.

(** ** The cleaned category tree *)

Lemma visible_true c :
  visible c = true ↔ ∃ h, getitem c "hidden" = Ok h ∧ truthy h = false.
Proof.
  unfold visible, not_hidden. destruct (getitem c "hidden") as [h | e]; simpl.
  - rewrite negb_true_iff. split; [eauto | by intros (h' & [= <-] & ?)].
  - split; [discriminate | by intros (h' & [=] & _)].
Qed.

Lemma elem_of_filter_bool (f : json → bool) l x :
  x ∈ List.filter f l ↔ x ∈ l ∧ f x = true.
Proof. rewrite !list_elem_of_In. apply filter_In. Qed.

Lemma categories_of_strip g :
  flagged_group g →
  getitem (strip g) "categories" = Ok (JArr (List.filter visible (categories_of g))) ∧
  categories_of (strip g) = List.filter visible (categories_of g).
Proof.
  intros (cs & l & Hcs & Hl & _).
  destruct (strip_of _ _ _ Hcs Hl) as (_ & -> & Hget).
  split; [done |]. unfold categories_of at 1. by rewrite Hget.
Qed.

Lemma strip_other_field g k :
  k ≠ "categories" → getitem (strip g) k = getitem g k.
Proof.
  intros Hne. unfold strip. destruct g; simpl; try done.
  by rewrite assoc_set_other.
Qed.

Lemma retained_list g cs :
  getitem g "categories" = Ok (JArr cs) →
  __valid_category_group g = Ok (Z.of_nat (length cs)) ∧
  (retained g = true ↔ cs ≠ []).
Proof.
  intros Hcs. unfold retained, __valid_category_group. rewrite Hcs. simpl.
  split; [done |]. rewrite negb_true_iff, Z.eqb_neq.
  destruct cs; simpl; split; try done; lia.
Qed.

Lemma retained_strip g :
  flagged_group g →
  retained (strip g) = true ↔ ∃ c, c ∈ categories_of g ∧ visible c = true.
Proof.
  intros Hg. destruct (categories_of_strip g Hg) as [Hget _].
  destruct (retained_list _ _ Hget) as [_ ->].
  destruct (List.filter visible (categories_of g)) as [| c rest] eqn:E.
  - split; [done |]. intros (c & Hc & Hv).
    assert (c ∈ List.filter visible (categories_of g)) as Hin
      by (by apply elem_of_filter_bool).
    rewrite E in Hin. by apply elem_of_nil in Hin.
  - split; [| done]. intros _. exists c.
    apply elem_of_filter_bool. rewrite E. apply list_elem_of_here.
Qed.

Lemma elem_of_final gs g' :
  g' ∈ List.filter retained (map strip gs) ↔
  ∃ g, g ∈ gs ∧ g' = strip g ∧ retained (strip g) = true.
Proof.
  rewrite elem_of_filter_bool. change (map strip gs) with (strip <$> gs).
  rewrite list_elem_of_fmap. split.
  - intros [(g & -> & Hg) Hr]. by exists g.
  - intros (g & Hg & -> & Hr). split; [by exists g | done].
Qed.

Section Tree.

Variable env : Env.

(** C2: after a successful construction [category_groups] is a list in
    which every group has a non-empty [categories] list, and every
    category of every such group has a [hidden] flag that is false (in
    particular it is not [True]). *)
Theorem no_empty_group_no_hidden_category
    (credentials_filename : string) (tr : list exchange) (s' : Sys) :
  construct env credentials_filename tr = (Ok tt, s') →
  ∃ final,
    category_groups (self s') = Some (JArr final) ∧
    ∀ g, g ∈ final →
      ∃ cs, getitem g "categories" = Ok (JArr cs) ∧ cs ≠ [] ∧
            ∀ c, c ∈ cs →
              ∃ h, getitem c "hidden" = Ok h ∧ truthy h = false ∧
                   h ≠ JBool true.
Proof.
  intros Hrun. apply init_ok in Hrun as (gs & ids & _ & Hall & Hfinal & _).
  eexists. split; [exact Hfinal |].
  intros g' Hin. apply elem_of_final in Hin as (g & Hg & -> & Hr).
  rewrite Forall_forall in Hall. specialize (Hall g Hg).
  destruct (categories_of_strip g Hall) as [Hget _].
  eexists. split; [exact Hget |]. split.
  - by apply (retained_list _ _ Hget).
  - intros c Hc. apply elem_of_filter_bool in Hc as [_ Hv].
    apply visible_true in Hv as (h & Hh & Ht).
    exists h. split; [done |]. split; [done |]. by intros ->.
Qed.

(** C4: the retention step keeps exactly the stored groups whose
    [categories] list is non-empty: [__valid_category_group] is the length
    of that list and looks at nothing else, the name included.  So after
    a successful construction the stored list is the stripped fetched
    groups filtered by that test, and a fetched group whose categories are
    all hidden is absent from it. *)
Theorem only_non_empty_groups_retained :
  (∀ s gs,
     category_groups (self s) = Some (JArr gs) →
     Forall (λ g, ∃ cs, getitem g "categories" = Ok (JArr cs)) gs →
     __remove_unused_category_groups s =
       (Ok tt, with_groups s (JArr (List.filter retained gs))) ∧
     ∀ g cs, getitem g "categories" = Ok (JArr cs) →
             __valid_category_group g = Ok (Z.of_nat (length cs)) ∧
             (retained g = true ↔ cs ≠ [])) ∧
  (∀ credentials_filename tr s',
     construct env credentials_filename tr = (Ok tt, s') →
     ∃ gs final,
       fetched_groups s' = Some gs ∧
       category_groups (self s') = Some (JArr final) ∧
       final = List.filter retained (map strip gs) ∧
       ∀ g, g ∈ gs →
            (∀ c, c ∈ categories_of g → visible c = false) →
            retained (strip g) = false ∧ (strip g ∉ final) ∧ (g ∉ final)).
Proof.
  split.
  - intros s gs Hg Hall. split; [| intros g cs; apply retained_list].
    apply (remove_unused_run s (JArr gs) gs Hg eq_refl).
    eapply Forall_impl; [exact Hall |]. intros g [cs Hcs].
    exists (Z.of_nat (length cs)). by apply retained_list.
  - intros fname tr s' Hrun.
    apply init_ok in Hrun as (gs & ids & Hf & Hall & Hfinal & _).
    exists gs, (List.filter retained (map strip gs)).
    split; [done |]. split; [done |]. split; [done |].
    rewrite Forall_forall in Hall.
    assert (Hgone : ∀ g, g ∈ gs →
              (∀ c, c ∈ categories_of g → visible c = false) →
              retained (strip g) = false).
    { intros g Hg Hhidden. destruct (retained (strip g)) eqn:E; [| done].
      apply (retained_strip g (Hall g Hg)) in E as (c & Hc & Hv).
      rewrite (Hhidden c Hc) in Hv. discriminate. }
    intros g Hg Hhidden. split; [by apply Hgone |]. split.
    + intros Hin. apply elem_of_filter_bool in Hin as [_ Hr].
      rewrite (Hgone g Hg Hhidden) in Hr. discriminate.
    + intros Hin. apply elem_of_final in Hin as (g0 & Hg0 & -> & Hr).
      apply (retained_strip g0 (Hall g0 Hg0)) in Hr as (c & Hc & Hv).
      assert (c ∈ categories_of (strip g0)) as Hc'.
      { destruct (categories_of_strip g0 (Hall g0 Hg0)) as [_ ->].
        by apply elem_of_filter_bool. }
      rewrite (Hhidden c Hc') in Hv. discriminate.
Qed.

(** C5: the hidden-category step replaces the [categories] of every
    stored group by the categories whose [hidden] flag is false, in their
    original order, and leaves the other fields of the group alone.  So
    after a successful construction every fetched group with at least one
    category that is not hidden is present, with exactly that ordered
    subset. *)
Theorem hidden_categories_stripped_in_order :
  (∀ s gs,
     category_groups (self s) = Some (JArr gs) →
     Forall flagged_group gs →
     __remove_hidden_categories s = (Ok tt, with_groups s (JArr (map strip gs))) ∧
     ∀ g, g ∈ gs →
          getitem (strip g) "categories" =
            Ok (JArr (List.filter visible (categories_of g))) ∧
          ∀ k, k ≠ "categories" → getitem (strip g) k = getitem g k) ∧
  (∀ credentials_filename tr s',
     construct env credentials_filename tr = (Ok tt, s') →
     ∃ gs final,
       fetched_groups s' = Some gs ∧
       category_groups (self s') = Some (JArr final) ∧
       ∀ g, g ∈ gs →
            (∃ c, c ∈ categories_of g ∧ visible c = true) →
            strip g ∈ final ∧
            getitem (strip g) "categories" =
              Ok (JArr (List.filter visible (categories_of g)))).
Proof.
  split.
  - intros s gs Hg Hall. split.
    + unfold __remove_hidden_categories.
      rewrite (bind_run _ _ _ _ _ (attr_run "category_groups" category_groups s _ Hg)).
      unfold bind at 1. unfold lift at 1. simpl.
      by apply (strip_groups_run gs []).
    + rewrite Forall_forall in Hall. intros g Hin. split.
      * by apply categories_of_strip, Hall.
      * intros k. apply strip_other_field.
  - intros fname tr s' Hrun.
    apply init_ok in Hrun as (gs & ids & Hf & Hall & Hfinal & _).
    exists gs, (List.filter retained (map strip gs)).
    split; [done |]. split; [done |].
    rewrite Forall_forall in Hall. intros g Hg Hvis. split.
    + apply elem_of_final. exists g. split; [done |]. split; [done |].
      by apply retained_strip; [apply Hall |].
    + by apply categories_of_strip, Hall.
Qed.

(** C1, as the code has it: after a successful construction the keys of
    [category_ids] are exactly the names of all the categories of the
    fetched response, hidden or not and whatever became of their group;
    in particular every category left after the cleanup has an entry. *)
Theorem index_covers_every_fetched_category
    (credentials_filename : string) (tr : list exchange) (s' : Sys) :
  construct env credentials_filename tr = (Ok tt, s') →
  ∃ gs ids final,
    fetched_groups s' = Some gs ∧
    category_ids (self s') = Some ids ∧
    category_groups (self s') = Some (JArr final) ∧
    (∀ k, k ∈ dom ids ↔ ∃ g c, g ∈ gs ∧ c ∈ categories_of g ∧ key_of c k) ∧
    (∀ g c, g ∈ final → c ∈ categories_of g → ∃ k, key_of c k ∧ k ∈ dom ids).
Proof.
  intros Hrun. apply init_ok in Hrun as (gs & ids & Hf & Hall & Hfinal & Hids & Hfrom & Hto).
  exists gs, ids, (List.filter retained (map strip gs)).
  split; [done |]. split; [done |]. split; [done |].
  assert (Hflat : ∀ c, c ∈ flat_map categories_of gs ↔
                       ∃ g, g ∈ gs ∧ c ∈ categories_of g).
  { intros c. rewrite list_elem_of_In, in_flat_map.
    split; intros (g & Hg & Hc); exists g; by rewrite ?list_elem_of_In in *. }
  split.
  - intros k. rewrite elem_of_dom. split.
    + intros [v Hv]. destruct (Hfrom k v Hv) as (c & Hc & Hk & _).
      apply Hflat in Hc as (g & Hg & Hc). by exists g, c.
    + intros (g & c & Hg & Hc & Hk).
      destruct (Hto c) as (k' & (n' & Hn' & Hk') & Hsome).
      { apply Hflat. by exists g. }
      destruct Hk as (n & Hn & Hk). congruence.
  - intros g' c Hin Hc. apply elem_of_final in Hin as (g & Hg & -> & _).
    rewrite Forall_forall in Hall.
    destruct (categories_of_strip g (Hall g Hg)) as [_ Heq]. rewrite Heq in Hc.
    apply elem_of_filter_bool in Hc as [Hc _].
    destruct (Hto c) as (k & Hk & Hsome); [apply Hflat; by exists g |].
    exists k. split; [done |]. by apply elem_of_dom.
Qed.

End Tree.

(** ** The scripted scenario *)

(** The theorems above, run on the environment of [Scenario]: the groups
    Bills (Rent, and OldCard hidden), Unused (X hidden) and Internal
    Master Category (Inflow). *)

Import Scenario.

Lemma success_returns_parsed_body_witness :
  run_call env (Get "/budgets") ready =
    (Ok budgets_body,
     logged ready (request_of env auth (Get "/budgets"))
       (answer 200 (Some budgets_body))) ∧
  run_call (answering (answer 204 (Some JNull)))
      (Patch "/budgets/B1/categories/c1" (JObj [("budgeted", JInt 5000)])) ready =
    (Ok JNull,
     logged ready
       (request_of env auth
          (Patch "/budgets/B1/categories/c1" (JObj [("budgeted", JInt 5000)])))
       (answer 204 (Some JNull))).
Proof.
  split.
  - apply (success_returns_parsed_body env (Get "/budgets") ready auth
             {| status_code := 200; resp_json := Some budgets_body |});
      [reflexivity | reflexivity | unfold is_2xx; simpl; lia | reflexivity].
  - apply (success_returns_parsed_body (answering (answer 204 (Some JNull)))
             (Patch "/budgets/B1/categories/c1" (JObj [("budgeted", JInt 5000)]))
             ready auth {| status_code := 204; resp_json := Some JNull |});
      [reflexivity | reflexivity | unfold is_2xx; simpl; lia | reflexivity].
Defined.


Lemma transport_failure_wrapped_once_witness :
  ∃ s', run_call (answering (TransportError "Connection refused"))
          (Get "/budgets") ready =
          (Raise (YNABAPIError ("YNAB API error:" +:+ nl +:+ "Connection refused")), s') ∧
        self s' = self ready ∧
        trace s' = [(request_of env auth (Get "/budgets"),
                     TransportError "Connection refused")] ∧
        length (trace s') = 1%nat.
Proof.
  exact (transport_failure_wrapped_once
           (answering (TransportError "Connection refused")) (Get "/budgets")
           ready auth "Connection refused" eq_refl eq_refl).
Defined.

Lemma undecodable_body_escapes_witness :
  run_call (answering (answer 200 None)) (Get "/budgets") ready =
    (Raise JSONDecodeError,
     logged ready (request_of env auth (Get "/budgets")) (answer 200 None)) ∧
  ∀ msg, JSONDecodeError ≠ YNABAPIError msg.
Proof.
  exact (undecodable_body_escapes (answering (answer 200 None)) (Get "/budgets")
           ready auth {| status_code := 200; resp_json := None |}
           eq_refl eq_refl eq_refl).
Defined.

Lemma budget_resolution_witness :
  __get_ynab_budget_id env "My Budget" ready =
    (Ok tt,
     with_budget_id
       (logged ready (request_of env auth (Get "/budgets"))
          (answer 200 (Some budgets_body)))
       (JStr "B1")) ∧
  __get_ynab_budget_id (answering (answer 200 (Some old_only))) "My Budget" ready =
    (Raise (YNABAPIError "Budget 'My Budget' not found"),
     logged ready (request_of env auth (Get "/budgets"))
       (answer 200 (Some old_only))).
Proof.
  split.
  - refine (proj1 (budget_resolution env "My Budget" ready auth
                     {| status_code := 200; resp_json := Some budgets_body |}
                     budgets_body _ _ eq_refl eq_refl eq_refl eq_refl eq_refl eq_refl)
                  [JObj [("id", JStr "B0"); ("name", JStr "Old Budget")]]
                  (JObj [("id", JStr "B1"); ("name", JStr "My Budget")])
                  [] (JStr "B1") eq_refl _ eq_refl eq_refl).
    constructor; [| constructor]. exists (JStr "Old Budget"). split; [reflexivity | discriminate].
  - refine (proj1 (proj2 (budget_resolution (answering (answer 200 (Some old_only)))
                     "My Budget" ready auth
                     {| status_code := 200; resp_json := Some old_only |}
                     old_only _ _ eq_refl eq_refl eq_refl eq_refl eq_refl eq_refl) _)).
    constructor; [| constructor]. exists (JStr "Old Budget"). split; [reflexivity | discriminate].
Defined.

Lemma credential_failures_reported_witness :
  setup_failed (with_file (FileError "[Errno 2] No such file or directory: 'cred'") None)
    "cred" {| self := blank; trace := [] |}
    ("Unable to open credentials file:" +:+ nl +:+
     "[Errno 2] No such file or directory: 'cred'") ∧
  setup_failed (with_file (FileText "not json") None)
    "cred" {| self := blank; trace := [] |}
    "Unable to parse credentials file cred" ∧
  setup_failed (with_file (FileText "{}") (Some (JObj [("key", JStr "abc")])))
    "cred" {| self := blank; trace := [] |}
    "Expected key 'prefix' not found in credentials file cred" ∧
  setup_failed (with_file (FileText "{}") (Some (JObj [("prefix", JStr "Bearer")])))
    "cred" {| self := blank; trace := [] |}
    "Expected key 'key' not found in credentials file cred".
Proof.
  split; [| split; [| split]].
  - exact (proj1 (credential_failures_reported
                    (with_file (FileError "[Errno 2] No such file or directory: 'cred'") None)
                    "cred" {| self := blank; trace := [] |})
             "[Errno 2] No such file or directory: 'cred'" eq_refl).
  - exact (proj1 (proj2 (credential_failures_reported
                           (with_file (FileText "not json") None)
                           "cred" {| self := blank; trace := [] |}))
             "not json" eq_refl eq_refl).
  - exact (proj1 (proj2 (proj2 (credential_failures_reported
                                  (with_file (FileText "{}") (Some (JObj [("key", JStr "abc")])))
                                  "cred" {| self := blank; trace := [] |})))
             "{}" [("key", JStr "abc")] eq_refl eq_refl eq_refl).
  - exact (proj2 (proj2 (proj2 (credential_failures_reported
                                  (with_file (FileText "{}") (Some (JObj [("prefix", JStr "Bearer")])))
                                  "cred" {| self := blank; trace := [] |})))
             "{}" [("prefix", JStr "Bearer")] "Bearer" eq_refl eq_refl eq_refl eq_refl).
Defined.

(** Construction succeeds in the scenario. *)
Lemma construct_example :
  construct env "~/cred" [] = (Ok tt, (construct env "~/cred" []).2).
Proof. vm_compute. reflexivity. Qed.

Lemma no_empty_group_no_hidden_category_witness :
  ∃ final,
    category_groups (self (construct env "~/cred" []).2) = Some (JArr final) ∧
    ∀ g, g ∈ final →
      ∃ cs, getitem g "categories" = Ok (JArr cs) ∧ cs ≠ [] ∧
            ∀ c, c ∈ cs →
              ∃ h, getitem c "hidden" = Ok h ∧ truthy h = false ∧
                   h ≠ JBool true.
Proof.
  apply (no_empty_group_no_hidden_category env "~/cred" []).
  vm_compute. reflexivity.
Defined.

Lemma only_non_empty_groups_retained_witness :
  __remove_unused_category_groups
      (with_groups ready (JArr (map strip fetched))) =
    (Ok tt, with_groups ready (JArr [strip bills; strip master])) ∧
  ∃ gs final,
    fetched_groups (construct env "~/cred" []).2 = Some gs ∧
    category_groups (self (construct env "~/cred" []).2) = Some (JArr final) ∧
    final = List.filter retained (map strip gs) ∧
    ∀ g, g ∈ gs →
         (∀ c, c ∈ categories_of g → visible c = false) →
         retained (strip g) = false ∧ (strip g ∉ final) ∧ (g ∉ final).
Proof.
  destruct (only_non_empty_groups_retained env) as [Hstep Hinit]. split.
  - refine (proj1 (Hstep (with_groups ready (JArr (map strip fetched)))
                     (map strip fetched) eq_refl _)).
    repeat constructor; eexists; reflexivity.
  - apply (Hinit "~/cred" []). vm_compute. reflexivity.
Defined.

Lemma hidden_categories_stripped_in_order_witness :
  __remove_hidden_categories (with_groups ready (JArr fetched)) =
    (Ok tt,
     with_groups ready
       (JArr [group "Bills" [category "Rent" "c1" false];
              group "Unused" [];
              group "Internal Master Category" [category "Inflow" "c4" false]])) ∧
  ∃ gs final,
    fetched_groups (construct env "~/cred" []).2 = Some gs ∧
    category_groups (self (construct env "~/cred" []).2) = Some (JArr final) ∧
    ∀ g, g ∈ gs →
         (∃ c, c ∈ categories_of g ∧ visible c = true) →
         strip g ∈ final ∧
         getitem (strip g) "categories" =
           Ok (JArr (List.filter visible (categories_of g))).
Proof.
  destruct (hidden_categories_stripped_in_order env) as [Hstep Hinit]. split.
  - refine (proj1 (Hstep (with_groups ready (JArr fetched)) fetched eq_refl _)).
    repeat constructor; eexists; eexists; (split; [reflexivity |]);
      (split; [reflexivity |]); repeat constructor; eexists; reflexivity.
  - apply (Hinit "~/cred" []). vm_compute. reflexivity.
Defined.

Lemma index_covers_every_fetched_category_witness :
  ∃ gs ids final,
    fetched_groups (construct env "~/cred" []).2 = Some gs ∧
    category_ids (self (construct env "~/cred" []).2) = Some ids ∧
    category_groups (self (construct env "~/cred" []).2) = Some (JArr final) ∧
    (∀ k, k ∈ dom ids ↔ ∃ g c, g ∈ gs ∧ c ∈ categories_of g ∧ key_of c k) ∧
    (∀ g c, g ∈ final → c ∈ categories_of g → ∃ k, key_of c k ∧ k ∈ dom ids).
Proof.
  apply (index_covers_every_fetched_category env "~/cred" []).
  vm_compute. reflexivity.
Defined.

(** C1 as the specification states it fails in the scenario: OldCard is
    hidden and stripped from Bills, and [category_ids] still has it. *)
Lemma hidden_category_stays_indexed :
  (construct env "~/cred" []).1 = Ok tt ∧
  ¬ index_is_visible_names (construct env "~/cred" []).2.
Proof.
  split; [vm_compute; reflexivity |].
  intros Hclaim.
  destruct (init_ok env "~/cred" _ _ construct_example)
    as (gs & ids & Hf & _ & Hfinal & Hids & _ & Hto).
  vm_compute in Hf. injection Hf as <-.
  specialize (Hclaim ids _ Hids Hfinal (KStr "OldCard")).
  destruct Hclaim as [Hclaim _].
  destruct Hclaim as (g & c & Hg & Hc & n & Hn & Hk).
  - destruct (Hto (category "OldCard" "c2" true)) as (k & (n & Hn & Hk) & Hsome).
    + apply list_elem_of_In. simpl. auto.
    + vm_compute in Hn. injection Hn as <-. injection Hk as <-.
      by apply elem_of_dom.
  - vm_compute in Hg.
    apply elem_of_cons in Hg as [-> | Hg];
      [| apply elem_of_cons in Hg as [-> | Hg]; [| by apply elem_of_nil in Hg]];
      vm_compute in Hc;
      apply elem_of_cons in Hc as [-> | Hc]; try (by apply elem_of_nil in Hc);
      vm_compute in Hn; injection Hn as <-; discriminate Hk.
Qed.

(** * More of the class *)

(** ** Every call of the primitives, and every credentials file *)

Section MorePrimitives.

Variable env : Env.

Lemma getitem_raise o k e :
  getitem o k = Raise e → e = KeyError k ∨ e = TypeError.
Proof.
  destruct o; simpl; try (intros [= <-]; by right).
  destruct (assoc k items); [discriminate |]. intros [= <-]. by left.
Qed.

Lemma check_api_result_frame r s : (__check_api_result env r s).2 = s.
Proof.
  unfold __check_api_result. destruct (resp_json r) as [data |]; [| done].
  destruct (negb (ok r)); [| done].
  unfold bind, lift.
  destruct (getitem data "error") as [error | e]; [| done].
  destruct (getitem error "name"); [| done].
  destruct (getitem error "detail"); done.
Qed.

(** X1: whatever comes back, a call of [api_get] or [api_patch] sends one
    request, the one built from the url, the payload and [self.headers],
    and changes no attribute of the object. *)
Theorem call_sends_one_request (c : api_call) (s : Sys)
    (h : list (string * string)) :
  headers (self s) = Some h →
  (run_call env c s).2 =
    logged s (request_of env h c) (http env (trace s) (request_of env h c)).
Proof.
  intros Hh. rewrite (run_call_unfold env c s h Hh).
  destruct (http env (trace s) (request_of env h c)) as [err | r]; [done |].
  apply check_api_result_frame.
Qed.

Lemma check_api_result_returns r s body s' :
  __check_api_result env r s = (Ok body, s') ↔
  resp_json r = Some body ∧ ok r = true ∧ s' = s.
Proof.
  split.
  - unfold __check_api_result.
    destruct (resp_json r) as [data |]; [| discriminate].
    destruct (ok r); simpl.
    + intros H. apply ret_ok in H as [-> ->]. done.
    + intros H. exfalso. inv_ok.
  - intros (Hbody & Hok & ->). by apply check_ok_status.
Qed.

(** X2: a call returns normally exactly when a response arrives whose
    status is outside 400..599 and whose body decodes; it then returns
    that body, also for a 1xx or 3xx status and also when the body has
    the shape of an error. *)
Theorem call_returns_iff (c : api_call) (s : Sys)
    (h : list (string * string)) (body : json) (s' : Sys) :
  headers (self s) = Some h →
  (run_call env c s = (Ok body, s') ↔
   ∃ r, http env (trace s) (request_of env h c) = Response r ∧
        resp_json r = Some body ∧
        ¬ (400 <= status_code r < 600) ∧
        s' = logged s (request_of env h c) (Response r)).
Proof.
  intros Hh. rewrite (run_call_unfold env c s h Hh).
  destruct (http env (trace s) (request_of env h c)) as [err | r].
  - split; [discriminate | by intros (r & [=] & _)].
  - rewrite check_api_result_returns. split.
    + intros (Hbody & Hok & ->). exists r. split; [done |]. split; [done |].
      split; [| done]. rewrite <- ok_false_iff. by rewrite Hok.
    + intros (r' & [= <-] & Hbody & Hst & ->). split; [done |]. split; [| done].
      destruct (ok r) eqn:E; [done |]. by apply ok_false_iff in E.
Qed.

(** X3: on an error status the message is built from the body by plain
    subscripts: when [error], [error.name] or [error.detail] cannot be
    read, the [KeyError] or [TypeError] of the first failing subscript
    leaves the call, and that is not a [YNABAPIError]. *)
Theorem error_body_without_fields_escapes (c : api_call) (s : Sys)
    (h : list (string * string)) (r : response) (body : json) (e : exn) :
  headers (self s) = Some h →
  http env (trace s) (request_of env h c) = Response r →
  ok r = false →
  resp_json r = Some body →
  (getitem body "error" = Raise e ∨
   ∃ error, getitem body "error" = Ok error ∧
            (getitem error "name" = Raise e ∨
             ∃ name, getitem error "name" = Ok name ∧
                     getitem error "detail" = Raise e)) →
  run_call env c s =
    (Raise e, logged s (request_of env h c) (Response r)) ∧
  ∀ msg, e ≠ YNABAPIError msg.
Proof.
  intros Hh Hhttp Hok Hbody Hcase.
  rewrite (run_call_unfold env c s h Hh), Hhttp.
  unfold __check_api_result. rewrite Hbody, Hok. simpl. unfold bind, lift.
  destruct Hcase as [He | (error & Herr & [He | (name & Hname & He)])].
  - rewrite He. split; [done |].
    intros msg ->. by destruct (getitem_raise _ _ _ He).
  - rewrite Herr, He. split; [done |].
    intros msg ->. by destruct (getitem_raise _ _ _ He).
  - rewrite Herr, Hname, He. split; [done |].
    intros msg ->. by destruct (getitem_raise _ _ _ He).
Qed.

End MorePrimitives.

Section MoreCredentials.

Variable env : Env.

Lemma string_app_assoc (a b c : string) : (a +:+ b) +:+ c = a +:+ b +:+ c.
Proof.
  induction a as [| x a IH]; [reflexivity |].
  change (String x ((a +:+ b) +:+ c) = String x (a +:+ b +:+ c)). by f_equal.
Qed.

Lemma authorization_ok credentials value :
  authorization credentials = Ok value ↔
  ∃ items prefix key,
    credentials = JObj items ∧
    assoc "prefix" items = Some (JStr prefix) ∧
    assoc "key" items = Some (JStr key) ∧
    value = prefix +:+ " " +:+ key.
Proof.
  unfold authorization. split.
  - intros H.
    apply rbind_ok in H as (p & Hp & H).
    apply rbind_ok in H as (l & Hl & H).
    apply rbind_ok in H as (k & Hk & H).
    apply getitem_ok_obj in Hp as (items & -> & Hp).
    apply getitem_ok_obj in Hk as (items' & [= <-] & Hk).
    destruct p as [| | | | prefix | |]; try discriminate. injection Hl as <-.
    destruct k as [| | | | key | |]; try discriminate. injection H as <-.
    exists items, prefix, key. by rewrite string_app_assoc.
  - intros (items & prefix & key & -> & Hp & Hk & ->). simpl.
    rewrite Hp. simpl. rewrite Hk. simpl. by rewrite string_app_assoc.
Qed.

(** When [__setup_ynab] returns, and what it has done then. *)
Lemma setup_returns_iff (credentials_filename : string) (s s' : Sys) :
  __setup_ynab env credentials_filename s = (Ok tt, s') ↔
  ∃ text items prefix key,
    open_read env (expanduser env credentials_filename) = FileText text ∧
    json_loads env text = Some (JObj items) ∧
    assoc "prefix" items = Some (JStr prefix) ∧
    assoc "key" items = Some (JStr key) ∧
    s' = with_headers s (authorized prefix key).
Proof.
  unfold __setup_ynab, bind, set_headers, update. simpl.
  destruct (open_read env (expanduser env credentials_filename))
    as [err | | text].
  { split; [discriminate | by intros (? & ? & ? & ? & [=] & _)]. }
  { split; [discriminate | by intros (? & ? & ? & ? & [=] & _)]. }
  destruct (json_loads env text) as [credentials |] eqn:Eload.
  2: { split; [discriminate |].
       intros (? & ? & ? & ? & Ho & Hl & _). injection Ho as <-. congruence. }
  destruct (authorization credentials) as [value | e] eqn:E.
  - apply authorization_ok in E as (items & prefix & key & -> & Hp & Hk & ->).
    split.
    + intros [= <-]. by exists text, items, prefix, key.
    + intros (? & items' & prefix' & key' & [= <-] & Hl & Hp' & Hk' & ->).
      rewrite Eload in Hl. injection Hl as <-.
      rewrite Hp in Hp'. rewrite Hk in Hk'.
      injection Hp' as <-. injection Hk' as <-. reflexivity.
  - split.
    + destruct e; discriminate.
    + intros (? & items & prefix & key & [= <-] & Hl & Hp & Hk & _).
      rewrite Eload in Hl. injection Hl as ->.
      exfalso.
      assert (authorization (JObj items) = Ok (prefix +:+ " " +:+ key)) as H.
      { apply authorization_ok. by exists items, prefix, key. }
      congruence.
Qed.

(** X4: [__setup_ynab] returns exactly when the file can be read, decodes
    to an object and carries a [str] under both [prefix] and [key]; the
    headers are then the JSON content type and
    [Authorization: <prefix> <key>], no request is sent and no other
    attribute is touched. *)
Theorem setup_succeeds_iff (credentials_filename : string) (s s' : Sys) :
  __setup_ynab env credentials_filename s = (Ok tt, s') ↔
  ∃ text items prefix key,
    open_read env (expanduser env credentials_filename) = FileText text ∧
    json_loads env text = Some (JObj items) ∧
    assoc "prefix" items = Some (JStr prefix) ∧
    assoc "key" items = Some (JStr key) ∧
    s' = with_headers s (authorized prefix key).
Proof. apply setup_returns_iff. Qed.

(** X5: credentials that decode but are ill typed (not an object, or a
    [prefix] that is not a string, or a string [prefix] with a [key] that
    is not a string) make [__setup_ynab], and construction with it, fail
    with a [TypeError]: no [except] clause catches it, so it is not a
    [YNABAPIError].  A non-string [prefix] does so even when [key] is
    missing. *)
Theorem ill_typed_credentials_escape
    (credentials_filename text : string) (credentials : json) (s : Sys) :
  open_read env (expanduser env credentials_filename) = FileText text →
  json_loads env text = Some credentials →
  ill_typed_credentials credentials = true →
  __setup_ynab env credentials_filename s =
    (Raise TypeError, with_headers s content_type) ∧
  __init__ env credentials_filename s =
    (Raise TypeError, with_headers s content_type).
Proof.
  intros Hopen Hload Hill.
  assert (Hsetup : __setup_ynab env credentials_filename s =
                     (Raise TypeError, with_headers s content_type)).
  { unfold __setup_ynab, bind, set_headers, update. simpl.
    rewrite Hopen, Hload.
    assert (authorization credentials = Raise TypeError) as ->; [| done].
    unfold authorization.
    destruct credentials as [| | | | | | items]; try done. simpl in *.
    destruct (assoc "prefix" items) as [p |]; [| discriminate]. simpl.
    destruct p; try done. simpl in *.
    destruct (assoc "key" items) as [k |]; [| discriminate]. simpl.
    destruct k; try done. }
  split; [done |]. unfold __init__. by apply bind_raise.
Qed.

End MoreCredentials.

(** ** The budget scan *)

Section MoreBudget.

Variable env : Env.

Lemma get_budget_id_scan name s h r summary data budgets l :
  headers (self s) = Some h →
  http env (trace s) (request_of env h (Get "/budgets")) = Response r →
  ok r = true →
  resp_json r = Some summary →
  getitem summary "data" = Ok data →
  getitem data "budgets" = Ok budgets →
  py_iter budgets = Ok l →
  __get_ynab_budget_id env name s =
    find_budget name l
      (logged s (request_of env h (Get "/budgets")) (Response r)).
Proof.
  intros Hh Hhttp Hok Hbody Hdata Hbudgets Hl.
  assert (Hget : api_get env "/budgets" s =
            (Ok summary, logged s (request_of env h (Get "/budgets")) (Response r))).
  { change (run_call env (Get "/budgets") s =
             (Ok summary, logged s (request_of env h (Get "/budgets")) (Response r))).
    rewrite (run_call_unfold env _ s h Hh), Hhttp. by apply check_ok_status. }
  unfold __get_ynab_budget_id. rewrite (bind_run _ _ _ _ _ Hget).
  unfold bind at 1. unfold lift at 1. rewrite Hdata.
  unfold bind at 1. unfold lift at 1. rewrite Hbudgets.
  unfold bind at 1. unfold lift at 1. rewrite Hl. reflexivity.
Qed.

Lemma find_budget_raise name before b after e s :
  Forall (other_name name) before →
  (getitem b "name" = Raise e ∨
   getitem b "name" = Ok (JStr name) ∧ getitem b "id" = Raise e) →
  find_budget name (before ++ b :: after) s = (Raise e, s).
Proof.
  intros Hbefore Hb.
  induction Hbefore as [| x rest (n & Hn & Hne) _ IH]; simpl.
  - unfold bind, lift. destruct Hb as [Hb | [Hn Hid]].
    + by rewrite Hb.
    + rewrite Hn. simpl. rewrite String.eqb_refl. by rewrite Hid.
  - unfold bind at 1. unfold lift at 1. rewrite Hn.
    apply eq_str_false in Hne. rewrite Hne. exact IH.
Qed.

(** X6: the scan of [__get_ynab_budget_id] subscripts every budget it
    reaches: a budget without a readable [name] ahead of any match, or a
    matching budget without a readable [id], ends the method with the
    [KeyError] or [TypeError] of that subscript, and no budget id is
    stored. *)
Theorem budget_scan_subscript_escapes (name : string) (s : Sys)
    (h : list (string * string)) (r : response)
    (summary data : json) (before after : list json) (b : json) (e : exn) :
  headers (self s) = Some h →
  http env (trace s) (request_of env h (Get "/budgets")) = Response r →
  ok r = true →
  resp_json r = Some summary →
  getitem summary "data" = Ok data →
  getitem data "budgets" = Ok (JArr (before ++ b :: after)) →
  Forall (other_name name) before →
  (getitem b "name" = Raise e ∨
   getitem b "name" = Ok (JStr name) ∧ getitem b "id" = Raise e) →
  let s1 := logged s (request_of env h (Get "/budgets")) (Response r) in
  __get_ynab_budget_id env name s = (Raise e, s1) ∧
  budget_id (self s1) = budget_id (self s) ∧
  ∀ msg, e ≠ YNABAPIError msg.
Proof.
  intros Hh Hhttp Hok Hbody Hdata Hbudgets Hbefore Hb s1.
  split; [| split; [done |]].
  - rewrite (get_budget_id_scan name s h r summary data _ _
               Hh Hhttp Hok Hbody Hdata Hbudgets eq_refl).
    by apply find_budget_raise.
  - intros msg ->. destruct Hb as [Hb | [_ Hb]];
      by destruct (getitem_raise _ _ _ Hb).
Qed.

Lemma find_budget_ok name l s s' :
  find_budget name l s = (Ok tt, s') →
  ∃ b id, b ∈ l ∧ getitem b "name" = Ok (JStr name) ∧
          getitem b "id" = Ok id ∧ s' = with_budget_id s id.
Proof.
  induction l as [| x rest IH]; simpl; [discriminate |].
  intros H. apply bind_ok in H as (n & s1 & Hn & H).
  apply lift_ok in Hn as [Hn ->].
  destruct (eq_str n name) eqn:E.
  - apply eq_str_true in E as ->.
    apply bind_ok in H as (id & s1 & Hid & H). apply lift_ok in Hid as [Hid ->].
    injection H as <-. exists x, id. split; [apply list_elem_of_here | done].
  - destruct (IH H) as (b & id & Hin & Hrest).
    exists b, id. split; [by apply list_elem_of_further | done].
Qed.

Lemma api_get_returns url s body s' :
  api_get env url s = (Ok body, s') →
  ∃ h r, headers (self s) = Some h ∧
         http env (trace s) (request_of env h (Get url)) = Response r ∧
         resp_json r = Some body ∧ ok r = true ∧
         s' = logged s (request_of env h (Get url)) (Response r).
Proof.
  intros Hrun.
  destruct (headers (self s)) as [h |] eqn:Hh.
  - change (run_call env (Get url) s = (Ok body, s')) in Hrun.
    rewrite (run_call_unfold env _ s h Hh) in Hrun.
    destruct (http env (trace s) (request_of env h (Get url))) as [err | r] eqn:E;
      [discriminate |].
    apply check_api_result_returns in Hrun as (Hbody & Hok & ->). by exists h, r.
  - unfold api_get in Hrun. apply bind_ok in Hrun as (h & s1 & Hattr & _).
    apply attr_ok in Hattr as [Hattr _]. congruence.
Qed.

Lemma get_budget_id_ok name s s' :
  __get_ynab_budget_id env name s = (Ok tt, s') →
  ∃ h r summary data budgets l b id,
    headers (self s) = Some h ∧
    http env (trace s) (request_of env h (Get "/budgets")) = Response r ∧
    ok r = true ∧
    resp_json r = Some summary ∧
    getitem summary "data" = Ok data ∧
    getitem data "budgets" = Ok budgets ∧
    py_iter budgets = Ok l ∧
    b ∈ l ∧ getitem b "name" = Ok (JStr name) ∧ getitem b "id" = Ok id ∧
    s' = with_budget_id
           (logged s (request_of env h (Get "/budgets")) (Response r)) id.
Proof.
  intros H. unfold __get_ynab_budget_id in H.
  apply bind_ok in H as (summary & s1 & Hget & H).
  apply api_get_returns in Hget as (h & r & Hh & Hhttp & Hbody & Hok & ->).
  apply bind_ok in H as (data & s1 & Hdata & H). apply lift_ok in Hdata as [Hdata ->].
  apply bind_ok in H as (budgets & s1 & Hb & H). apply lift_ok in Hb as [Hb ->].
  apply bind_ok in H as (l & s1 & Hl & H). apply lift_ok in Hl as [Hl ->].
  apply find_budget_ok in H as (b & id & Hin & Hname & Hid & ->).
  exists h, r, summary, data, budgets, l, b, id. repeat split; done.
Qed.

End MoreBudget.

(** ** The index as a function of the categories *)

Lemma index_step_insert ids c k id :
  key_of c k → getitem c "id" = Ok id → index_step ids c = <[k := id]> ids.
Proof.
  intros (n & Hn & Hk) Hid. unfold index_step. rewrite Hid, Hn. simpl.
  by rewrite Hk.
Qed.

Lemma index_step_other ids c k :
  ¬ key_of c k → index_step ids c !! k = ids !! k.
Proof.
  intros Hno. unfold index_step.
  destruct (getitem c "id") as [id |]; [| done].
  destruct (getitem c "name") as [n |] eqn:Hn; [| done]. simpl.
  destruct (hash_key n) as [k' |] eqn:Hk; [| done].
  apply lookup_insert_ne. intros ->. apply Hno. by exists n.
Qed.

Lemma fold_index_other after ids k :
  (∀ c, c ∈ after → ¬ key_of c k) →
  fold_left index_step after ids !! k = ids !! k.
Proof.
  revert ids. induction after as [| c rest IH]; intros ids Hno; [done |].
  simpl. rewrite IH.
  - apply index_step_other, Hno, list_elem_of_here.
  - intros c' Hc'. by apply Hno, list_elem_of_further.
Qed.

(** Later categories overwrite earlier ones of the same name. *)
Lemma index_of_last before c after k id :
  key_of c k → getitem c "id" = Ok id →
  (∀ c', c' ∈ after → ¬ key_of c' k) →
  index_of (before ++ c :: after) !! k = Some id.
Proof.
  intros Hk Hid Hno. unfold index_of. rewrite fold_left_app. simpl.
  rewrite (fold_index_other after _ k Hno).
  rewrite (index_step_insert _ c k id Hk Hid). apply lookup_insert_eq.
Qed.

Lemma index_category_run c s ids id k :
  category_ids (self s) = Some ids →
  getitem c "id" = Ok id → key_of c k →
  index_category c s = (Ok tt, with_ids s (index_step ids c)).
Proof.
  intros Hids Hid Hk. rewrite (index_step_insert ids c k id Hk Hid).
  destruct Hk as (n & Hn & Hk). unfold index_category.
  unfold bind at 1. unfold lift at 1. rewrite Hid.
  rewrite (bind_run _ _ _ _ _ (attr_run "category_ids" category_ids s _ Hids)).
  unfold bind at 1. unfold lift at 1. rewrite Hn.
  unfold bind at 1. unfold lift at 1. rewrite Hk. reflexivity.
Qed.

Lemma index_categories_run cs : ∀ s ids,
  category_ids (self s) = Some ids →
  Forall (λ c, (∃ id, getitem c "id" = Ok id) ∧ ∃ k, key_of c k) cs →
  for_each cs index_category s =
    (Ok tt, with_ids s (fold_left index_step cs ids)).
Proof.
  induction cs as [| c rest IH]; intros s ids Hids Hall.
  - simpl. unfold ret. f_equal. destruct s as [[h b g i] t]. simpl in *.
    by rewrite Hids.
  - apply Forall_cons in Hall as [[[id Hid] [k Hk]] Hall]. simpl.
    rewrite (bind_run _ _ _ _ _ (index_category_run c s ids id k Hids Hid Hk)).
    by rewrite (IH (with_ids s (index_step ids c)) (index_step ids c) eq_refl Hall).
Qed.

Lemma well_formed_indexable cs :
  Forall well_formed_category cs →
  Forall (λ c, (∃ id, getitem c "id" = Ok id) ∧ ∃ k, key_of c k) cs.
Proof.
  intros Hall. eapply Forall_impl; [exact Hall |]. by intros c (Hid & Hk & _).
Qed.

Lemma well_formed_flagged g : well_formed_group g → flagged_group g.
Proof.
  intros (cs & Hcs & Hall). exists (JArr cs), cs. split; [done |].
  split; [done |]. eapply Forall_impl; [exact Hall |]. by intros c (_ & _ & Hf).
Qed.

Lemma well_formed_categories_of g cs :
  getitem g "categories" = Ok (JArr cs) → categories_of g = cs.
Proof. intros H. unfold categories_of. by rewrite H. Qed.

Lemma index_groups_run gs : ∀ s ids,
  category_ids (self s) = Some ids →
  Forall well_formed_group gs →
  for_each gs index_group s =
    (Ok tt, with_ids s (fold_left index_step (flat_map categories_of gs) ids)).
Proof.
  induction gs as [| g rest IH]; intros s ids Hids Hall.
  - simpl. unfold ret. f_equal. destruct s as [[h b x i] t]. simpl in *.
    by rewrite Hids.
  - apply Forall_cons in Hall as [(cs & Hcs & Hwf) Hall]. simpl.
    rewrite (well_formed_categories_of g cs Hcs), fold_left_app.
    assert (Hg : index_group g s =
                   (Ok tt, with_ids s (fold_left index_step cs ids))).
    { unfold index_group.
      unfold bind at 1. unfold lift at 1. rewrite Hcs.
      unfold bind at 1. unfold lift at 1. simpl.
      apply index_categories_run; [done | by apply well_formed_indexable]. }
    rewrite (bind_run _ _ _ _ _ Hg).
    by rewrite (IH (with_ids s (fold_left index_step cs ids)) _ eq_refl Hall).
Qed.

(** The loops compute [index_of] whenever they return. *)
Lemma index_categories_fold s0 ids0 base l s s' :
  category_ids (self s) = Some (fold_left index_step base ids0) →
  same_but_ids s0 s →
  for_each l index_category s = (Ok tt, s') →
  category_ids (self s') = Some (fold_left index_step (base ++ l) ids0) ∧
  same_but_ids s0 s'.
Proof.
  intros Hids Hsame Hrun.
  apply (for_each_ok index_category
           (λ done s, category_ids (self s) =
                        Some (fold_left index_step (base ++ done) ids0) ∧
                      same_but_ids s0 s) l)
    with (done := []) (s := s) (s' := s') in Hrun; [done | | by rewrite app_nil_r].
  clear. intros done x s1 s2 [Hids Hsame] Hx.
  apply index_category_ok in Hx as (ids' & id & k & Hids' & Hid & Hk & ->).
  rewrite Hids in Hids'. injection Hids' as <-. split; [| done].
  rewrite (app_assoc base done [x]).
  rewrite (fold_left_app index_step (base ++ done) [x]). cbn [fold_left].
  by rewrite (index_step_insert _ x k id Hk Hid).
Qed.

Lemma index_groups_fold s0 gs s s' :
  category_ids (self s) = Some ∅ →
  same_but_ids s0 s →
  for_each gs index_group s = (Ok tt, s') →
  category_ids (self s') = Some (index_of (flat_map categories_of gs)) ∧
  same_but_ids s0 s'.
Proof.
  intros Hids Hsame Hrun. unfold index_of.
  apply (for_each_ok index_group
           (λ done s, category_ids (self s) =
                        Some (fold_left index_step (flat_map categories_of done) ∅) ∧
                      same_but_ids s0 s) gs)
    with (done := []) (s := s) (s' := s') in Hrun; [done | | done].
  clear. intros done g s1 s2 [Hids Hsame] Hg.
  unfold index_group in Hg.
  apply bind_ok in Hg as (cs & s & Hcs & Hg). apply lift_ok in Hcs as [Hcs ->].
  apply bind_ok in Hg as (l & s & Hl & Hg). apply lift_ok in Hl as [Hl ->].
  rewrite flat_map_app. simpl. rewrite app_nil_r.
  replace (categories_of g) with l
    by (unfold categories_of; rewrite Hcs; simpl; by rewrite Hl).
  by eapply index_categories_fold.
Qed.

Section MoreFetch.

Variable env : Env.

(** Everything [__get_ynab_budget_categories] has done when it returns. *)
Lemma get_categories_returns s s' :
  __get_ynab_budget_categories env s = (Ok tt, s') →
  ∃ id h r body data groups gs,
    budget_id (self s) = Some id ∧
    headers (self s) = Some h ∧
    http env (trace s)
      (request_of env h (Get ("/budgets/" +:+ py_str env id +:+ "/categories")))
      = Response r ∧
    ok r = true ∧
    resp_json r = Some body ∧
    getitem body "data" = Ok data ∧
    getitem data "category_groups" = Ok groups ∧
    py_iter groups = Ok gs ∧
    headers (self s') = Some h ∧
    budget_id (self s') = Some id ∧
    category_groups (self s') = Some groups ∧
    category_ids (self s') = Some (index_of (flat_map categories_of gs)) ∧
    trace s' = trace s ++
      [(request_of env h (Get ("/budgets/" +:+ py_str env id +:+ "/categories")),
        Response r)].
Proof.
  intros Hrun. unfold __get_ynab_budget_categories in Hrun.
  apply bind_ok in Hrun as (id & s1 & Hid & Hrun). apply attr_ok in Hid as [Hid ->].
  apply bind_ok in Hrun as (body & s1 & Hget & Hrun).
  apply api_get_returns in Hget as (h & r & Hh & Hhttp & Hbody & Hok & ->).
  apply bind_ok in Hrun as (data & s1 & Hdata & Hrun).
  apply lift_ok in Hdata as [Hdata ->].
  apply bind_ok in Hrun as (groups & s1 & Hgroups & Hrun).
  apply lift_ok in Hgroups as [Hgroups ->].
  apply bind_ok in Hrun as ([] & s1 & Hset & Hrun). injection Hset as <-.
  apply bind_ok in Hrun as ([] & s2 & Hset & Hrun). injection Hset as <-.
  apply bind_ok in Hrun as (gs & s2 & Hiter & Hrun).
  apply lift_ok in Hiter as [Hiter ->].
  match type of Hrun with for_each _ _ ?s0 = _ =>
    apply (index_groups_fold s0) in Hrun as (Hids & Hh' & Hb' & Hg' & Ht');
      [| done | done]
  end.
  exists id, h, r, body, data, groups, gs. simpl in *.
  repeat split; try done; congruence.
Qed.

Lemma api_get_run url s h r body :
  headers (self s) = Some h →
  http env (trace s) (request_of env h (Get url)) = Response r →
  ok r = true →
  resp_json r = Some body →
  api_get env url s =
    (Ok body, logged s (request_of env h (Get url)) (Response r)).
Proof.
  intros Hh Hhttp Hok Hbody.
  change (api_get env url s) with (run_call env (Get url) s).
  rewrite (run_call_unfold env _ s h Hh), Hhttp. by apply check_ok_status.
Qed.

Lemma get_categories_run s id h r body data gs :
  budget_id (self s) = Some id →
  headers (self s) = Some h →
  http env (trace s)
    (request_of env h (Get ("/budgets/" +:+ py_str env id +:+ "/categories")))
    = Response r →
  ok r = true →
  resp_json r = Some body →
  getitem body "data" = Ok data →
  getitem data "category_groups" = Ok (JArr gs) →
  Forall well_formed_group gs →
  __get_ynab_budget_categories env s =
    (Ok tt,
     with_ids
       (with_groups
          (logged s
             (request_of env h
                (Get ("/budgets/" +:+ py_str env id +:+ "/categories")))
             (Response r))
          (JArr gs))
       (index_of (flat_map categories_of gs))).
Proof.
  intros Hid Hh Hhttp Hok Hbody Hdata Hgroups Hall.
  unfold __get_ynab_budget_categories.
  rewrite (bind_run _ _ _ _ _ (attr_run "budget_id" budget_id s _ Hid)).
  rewrite (bind_run _ _ _ _ _ (api_get_run _ s h r body Hh Hhttp Hok Hbody)).
  unfold bind at 1. unfold lift at 1. rewrite Hdata.
  unfold bind at 1. unfold lift at 1. rewrite Hgroups.
  unfold bind at 1. unfold set_category_groups at 1. unfold update at 1.
  unfold bind at 1. unfold set_category_ids at 1. unfold update at 1.
  unfold bind at 1. unfold lift at 1. simpl py_iter. cbv beta iota.
  erewrite index_groups_run; [reflexivity | reflexivity | exact Hall].
Qed.

End MoreFetch.

(** ** Construction as a whole *)

Section Construction.

Variable env : Env.

Lemma last_two {A} (l : list A) (a b : A) : last (l ++ [a; b]) = Some b.
Proof.
  replace (l ++ [a; b]) with ((l ++ [a]) ++ [b]) by (by rewrite <- app_assoc).
  apply last_snoc.
Qed.

(** Everything a construction has done when it returns. *)
Lemma init_returns credentials_filename s s' :
  __init__ env credentials_filename s = (Ok tt, s') →
  ∃ prefix key id r1 r2 groups gs,
    let h := authorized prefix key in
    (∃ text items,
       open_read env (expanduser env credentials_filename) = FileText text ∧
       json_loads env text = Some (JObj items) ∧
       assoc "prefix" items = Some (JStr prefix) ∧
       assoc "key" items = Some (JStr key)) ∧
    http env (trace s) (budgets_request env h) = Response r1 ∧
    http env (trace s ++ [(budgets_request env h, Response r1)])
      (categories_request env h id) = Response r2 ∧
    ok r1 = true ∧
    (∃ summary data budgets l b,
       resp_json r1 = Some summary ∧
       getitem summary "data" = Ok data ∧
       getitem data "budgets" = Ok budgets ∧
       py_iter budgets = Ok l ∧
       b ∈ l ∧
       getitem b "name" = Ok (JStr "My Budget") ∧
       getitem b "id" = Ok id) ∧
    ok r2 = true ∧
    (∃ body data,
       resp_json r2 = Some body ∧
       getitem body "data" = Ok data ∧
       getitem data "category_groups" = Ok groups) ∧
    py_iter groups = Ok gs ∧
    Forall flagged_group gs ∧
    s' = {| self := {| headers := Some h;
                       budget_id := Some id;
                       category_groups :=
                         Some (JArr (List.filter retained (map strip gs)));
                       category_ids :=
                         Some (index_of (flat_map categories_of gs)) |};
            trace := trace s ++ [(budgets_request env h, Response r1);
                                 (categories_request env h id, Response r2)] |}.
Proof.
  intros Hrun. unfold __init__ in Hrun.
  apply bind_ok in Hrun as ([] & s1 & Hsetup & Hrun).
  apply bind_ok in Hrun as ([] & s2 & Hbudget & Hrun).
  apply bind_ok in Hrun as ([] & s3 & Hfetch & Hrun).
  apply bind_ok in Hrun as ([] & s4 & Hhide & Hrun).
  apply setup_returns_iff in Hsetup
    as (text & items & prefix & key & Hopen & Hload & Hprefix & Hkey & ->).
  apply get_budget_id_ok in Hbudget
    as (h & r1 & summary & data1 & budgets & l & b & id &
        Hh & Hhttp1 & Hok1 & Hsum & Hdata1 & Hbud & Hl & Hin & Hname & Hid & ->).
  simpl in Hh. injection Hh as <-.
  apply get_categories_returns in Hfetch
    as (id' & h' & r2 & body & data2 & groups & gs &
        Hid' & Hh' & Hhttp2 & Hok2 & Hbody & Hdata2 & Hgroups & Hiter &
        Hh3 & Hb3 & Hg3 & Hi3 & Ht3).
  simpl in Hid', Hh'. injection Hid' as <-. injection Hh' as <-.
  apply (remove_hidden_ok _ _ _ _ Hg3 Hiter) in Hhide as (Hall & groups' & -> & Hiter').
  apply (remove_unused_ok (with_groups s3 groups') _ groups' _ eq_refl Hiter')
    in Hrun as [_ ->].
  exists prefix, key, id, r1, r2, groups, gs. simpl.
  split; [by exists text, items |].
  split; [exact Hhttp1 |]. split; [exact Hhttp2 |]. split; [done |].
  split; [by exists summary, data1, budgets, l, b |].
  split; [done |]. split; [by exists body, data2 |].
  split; [done |]. split; [done |].
  unfold with_groups. simpl. rewrite Hh3, Hb3, Hi3, Ht3. simpl.
  by rewrite <- app_assoc.
Qed.

(** X7: a construction that returns has sent exactly two requests, both
    [GET] with the JSON content type and [Authorization: <prefix> <key>],
    [prefix] and [key] being the strings the credentials file carries:
    first the budgets list, then the categories of the budget whose id it
    stored.  The two responses in the trace are the server's answers to
    these requests, both with a status outside 400..599, and the stored
    id is the id of a budget named 'My Budget' in the first answer. *)
Theorem construction_sends_two_requests
    (credentials_filename : string) (tr : list exchange) (s' : Sys) :
  construct env credentials_filename tr = (Ok tt, s') →
  ∃ text items prefix key id r1 r2,
    open_read env (expanduser env credentials_filename) = FileText text ∧
    json_loads env text = Some (JObj items) ∧
    assoc "prefix" items = Some (JStr prefix) ∧
    assoc "key" items = Some (JStr key) ∧
    let h := authorized prefix key in
    headers (self s') = Some h ∧
    budget_id (self s') = Some id ∧
    trace s' = tr ++ [(budgets_request env h, Response r1);
                      (categories_request env h id, Response r2)] ∧
    http env tr (budgets_request env h) = Response r1 ∧
    http env (tr ++ [(budgets_request env h, Response r1)])
      (categories_request env h id) = Response r2 ∧
    ok r1 = true ∧ ok r2 = true ∧
    ∃ summary data budgets l b,
      resp_json r1 = Some summary ∧
      getitem summary "data" = Ok data ∧
      getitem data "budgets" = Ok budgets ∧
      py_iter budgets = Ok l ∧
      b ∈ l ∧
      getitem b "name" = Ok (JStr "My Budget") ∧
      getitem b "id" = Ok id.
Proof.
  intros Hrun. apply init_returns in Hrun
    as (prefix & key & id & r1 & r2 & groups & gs &
        (text & items & Hopen & Hload & Hprefix & Hkey) &
        Hhttp1 & Hhttp2 & Hok1 & Hfirst & Hok2 & _ & _ & _ & ->).
  exists text, items, prefix, key, id, r1, r2. simpl.
  split; [done |]. split; [done |]. split; [done |]. split; [done |].
  split; [done |]. split; [done |]. split; [done |].
  split; [exact Hhttp1 |]. split; [exact Hhttp2 |]. split; [done |].
  split; [done |]. exact Hfirst.
Qed.

(** X8: when several categories of the fetched response share a name,
    [category_ids] maps the name to the id of the last of them, in the
    order of the groups and of the categories within a group. *)
Theorem index_last_category_wins
    (credentials_filename : string) (tr : list exchange) (s' : Sys) :
  construct env credentials_filename tr = (Ok tt, s') →
  ∃ gs ids,
    fetched_groups s' = Some gs ∧
    category_ids (self s') = Some ids ∧
    ∀ before c after k id,
      flat_map categories_of gs = before ++ c :: after →
      key_of c k →
      getitem c "id" = Ok id →
      (∀ c', c' ∈ after → ¬ key_of c' k) →
      ids !! k = Some id.
Proof.
  intros Hrun. apply init_returns in Hrun
    as (prefix & key & id & r1 & r2 & groups & gs &
        _ & _ & _ & _ & _ & _ &
        (body & data & Hbody & Hdata & Hgroups) & Hiter & _ & ->).
  exists gs, (index_of (flat_map categories_of gs)).
  split; [| split; [done |]].
  - unfold fetched_groups. simpl.
    rewrite last_two, Hbody, Hdata. simpl.
    rewrite Hgroups. simpl. by rewrite Hiter.
  - intros before c after k id' Hsplit Hk Hid Hno. rewrite Hsplit.
    by apply index_of_last.
Qed.

Lemma cleanup_run s gs :
  category_groups (self s) = Some (JArr gs) →
  Forall flagged_group gs →
  cleanup s = (Ok tt, with_groups s (JArr (List.filter retained (map strip gs)))).
Proof.
  intros Hg Hall. unfold cleanup.
  assert (Hhide : __remove_hidden_categories s =
                    (Ok tt, with_groups s (JArr (map strip gs)))).
  { unfold __remove_hidden_categories.
    rewrite (bind_run _ _ _ _ _ (attr_run "category_groups" category_groups s _ Hg)).
    unfold bind at 1. unfold lift at 1. simpl.
    by apply (strip_groups_run gs []). }
  rewrite (bind_run _ _ _ _ _ Hhide).
  rewrite (remove_unused_run (with_groups s (JArr (map strip gs)))
             (JArr (map strip gs)) (map strip gs) eq_refl eq_refl); [done |].
  apply Forall_map. eapply Forall_impl; [exact Hall |]. intros g Hflag. simpl.
  destruct (categories_of_strip g Hflag) as [Hget _].
  eexists. by apply (retained_list _ _ Hget).
Qed.

(** X9: for valid credentials, a budgets answer that lists 'My Budget'
    and a categories answer whose groups carry lists of categories with
    [id], hashable [name] and [hidden], construction returns, and leaves
    the headers, the id of the first 'My Budget', the stripped non-empty
    groups in their order, the index of all fetched categories and a
    trace of exactly the two requests. *)
Theorem construction_succeeds
    (credentials_filename text : string) (items : list (string * json))
    (prefix key : string) (tr : list exchange) (r1 r2 : response)
    (summary data1 : json) (before after : list json) (b id : json)
    (body data2 : json) (gs : list json) :
  let h := authorized prefix key in
  open_read env (expanduser env credentials_filename) = FileText text →
  json_loads env text = Some (JObj items) →
  assoc "prefix" items = Some (JStr prefix) →
  assoc "key" items = Some (JStr key) →
  http env tr (budgets_request env h) = Response r1 →
  ok r1 = true →
  resp_json r1 = Some summary →
  getitem summary "data" = Ok data1 →
  getitem data1 "budgets" = Ok (JArr (before ++ b :: after)) →
  Forall (other_name "My Budget") before →
  getitem b "name" = Ok (JStr "My Budget") →
  getitem b "id" = Ok id →
  http env (tr ++ [(budgets_request env h, Response r1)])
    (categories_request env h id) = Response r2 →
  ok r2 = true →
  resp_json r2 = Some body →
  getitem body "data" = Ok data2 →
  getitem data2 "category_groups" = Ok (JArr gs) →
  Forall well_formed_group gs →
  construct env credentials_filename tr =
    (Ok tt,
     {| self := {| headers := Some h;
                   budget_id := Some id;
                   category_groups :=
                     Some (JArr (List.filter retained (map strip gs)));
                   category_ids :=
                     Some (index_of (flat_map categories_of gs)) |};
        trace := tr ++ [(budgets_request env h, Response r1);
                        (categories_request env h id, Response r2)] |}).
Proof.
  intros h Hopen Hload Hprefix Hkey Hhttp1 Hok1 Hsum Hdata1 Hbud Hbefore
    Hname Hid Hhttp2 Hok2 Hbody Hdata2 Hgroups Hall.
  unfold construct, __init__.
  set (s0 := {| self := blank; trace := tr |}).
  assert (Hsetup : __setup_ynab env credentials_filename s0 =
                     (Ok tt, with_headers s0 h)).
  { apply setup_returns_iff. by exists text, items, prefix, key. }
  rewrite (bind_run _ _ _ _ _ Hsetup).
  set (s1 := with_headers s0 h).
  assert (Hbudget : __get_ynab_budget_id env "My Budget" s1 =
            (Ok tt, with_budget_id
                      (logged s1 (budgets_request env h) (Response r1)) id)).
  { rewrite (get_budget_id_scan env "My Budget" s1 h r1 summary data1 _ _
               eq_refl Hhttp1 Hok1 Hsum Hdata1 Hbud eq_refl).
    by apply find_budget_first. }
  rewrite (bind_run _ _ _ _ _ Hbudget).
  set (s2 := with_budget_id _ id).
  rewrite (bind_run _ _ _ _ _
             (get_categories_run env s2 id h r2 body data2 gs
                eq_refl eq_refl Hhttp2 Hok2 Hbody Hdata2 Hgroups Hall)).
  match goal with |- bind _ _ ?s = _ =>
    change (cleanup s = (Ok tt,
      {| self := {| headers := Some h; budget_id := Some id;
                    category_groups :=
                      Some (JArr (List.filter retained (map strip gs)));
                    category_ids := Some (index_of (flat_map categories_of gs)) |};
         trace := tr ++ [(budgets_request env h, Response r1);
                         (categories_request env h id, Response r2)] |}));
    rewrite (cleanup_run s gs eq_refl)
  end.
  - unfold with_groups. simpl. by rewrite <- app_assoc.
  - eapply Forall_impl; [exact Hall |]. apply well_formed_flagged.
Qed.

(** X10: when the budgets answer has no 'My Budget', construction fails
    with the not-found error after that single request: the categories
    endpoint is never asked, and only the headers have been set. *)
Theorem missing_budget_stops_construction
    (credentials_filename text : string) (items : list (string * json))
    (prefix key : string) (tr : list exchange) (r1 : response)
    (summary data1 : json) (budgets : list json) :
  let h := authorized prefix key in
  open_read env (expanduser env credentials_filename) = FileText text →
  json_loads env text = Some (JObj items) →
  assoc "prefix" items = Some (JStr prefix) →
  assoc "key" items = Some (JStr key) →
  http env tr (budgets_request env h) = Response r1 →
  ok r1 = true →
  resp_json r1 = Some summary →
  getitem summary "data" = Ok data1 →
  getitem data1 "budgets" = Ok (JArr budgets) →
  Forall (other_name "My Budget") budgets →
  construct env credentials_filename tr =
    (Raise (YNABAPIError "Budget 'My Budget' not found"),
     {| self := {| headers := Some h; budget_id := None;
                   category_groups := None; category_ids := None |};
        trace := tr ++ [(budgets_request env h, Response r1)] |}).
Proof.
  intros h Hopen Hload Hprefix Hkey Hhttp1 Hok1 Hsum Hdata1 Hbud Hnone.
  unfold construct, __init__.
  set (s0 := {| self := blank; trace := tr |}).
  assert (Hsetup : __setup_ynab env credentials_filename s0 =
                     (Ok tt, with_headers s0 h)).
  { apply setup_returns_iff. by exists text, items, prefix, key. }
  rewrite (bind_run _ _ _ _ _ Hsetup).
  apply bind_raise.
  rewrite (get_budget_id_scan env "My Budget" (with_headers s0 h) h r1 summary
             data1 _ _ eq_refl Hhttp1 Hok1 Hsum Hdata1 Hbud eq_refl).
  by rewrite find_budget_none.
Qed.

End Construction.

(** ** The cleanup passes again *)

Lemma assoc_set_twice k v v' items :
  assoc_set k v (assoc_set k v' items) = assoc_set k v items.
Proof.
  induction items as [| [k0 v0] rest IH]; simpl.
  - by rewrite String.eqb_refl.
  - destruct (String.eqb k k0) eqn:E; simpl.
    + by rewrite String.eqb_refl.
    + by rewrite E, IH.
Qed.

Lemma filter_bool_twice {A} (f : A → bool) l :
  List.filter f (List.filter f l) = List.filter f l.
Proof.
  induction l as [| x rest IH]; simpl; [done |].
  destruct (f x) eqn:E; simpl; [by rewrite E, IH | done].
Qed.

Lemma strip_flagged g : flagged_group g → flagged_group (strip g).
Proof.
  intros Hg. destruct (categories_of_strip g Hg) as [Hget _].
  destruct Hg as (cs & l & Hcs & Hl & Hflags).
  eexists _, _. split; [exact Hget |]. split; [reflexivity |].
  replace (categories_of g) with l
    by (unfold categories_of; rewrite Hcs; simpl; by rewrite Hl).
  rewrite Forall_forall in Hflags. apply Forall_forall. intros c Hc.
  apply elem_of_filter_bool in Hc as [Hc _]. by apply Hflags.
Qed.

Lemma strip_twice g : flagged_group g → strip (strip g) = strip g.
Proof.
  intros Hg. destruct (categories_of_strip g Hg) as [_ Hcat].
  destruct Hg as (cs & l & Hcs & Hl & _).
  apply getitem_ok_obj in Hcs as (items & -> & _).
  unfold strip at 1. rewrite Hcat, filter_bool_twice.
  unfold strip. simpl. by rewrite assoc_set_twice.
Qed.

Lemma map_fixed {A} (f : A → A) l : Forall (λ x, f x = x) l → map f l = l.
Proof. induction 1 as [| x rest Hx _ IH]; simpl; [done | by rewrite Hx, IH]. Qed.

(** X11: the cleanup is idempotent: on stored groups whose categories all
    carry the flag it returns, and running it again on the result returns
    with nothing changed. *)
Theorem cleanup_idempotent (s : Sys) (gs : list json) :
  category_groups (self s) = Some (JArr gs) →
  Forall flagged_group gs →
  ∃ s1, cleanup s = (Ok tt, s1) ∧ cleanup s1 = (Ok tt, s1).
Proof.
  intros Hg Hall. eexists. split; [by apply cleanup_run |].
  set (gs1 := List.filter retained (map strip gs)).
  assert (Hfrom : ∀ g, g ∈ gs1 → ∃ g0, g0 ∈ gs ∧ g = strip g0).
  { intros g Hin. apply elem_of_final in Hin as (g0 & Hg0 & -> & _). eauto. }
  rewrite Forall_forall in Hall.
  rewrite (cleanup_run (with_groups s (JArr gs1)) gs1 eq_refl).
  - unfold with_groups. simpl. do 4 f_equal.
    rewrite map_fixed.
    + f_equal. apply filter_bool_twice.
    + apply Forall_forall. intros g Hin.
      destruct (Hfrom g Hin) as (g0 & Hg0 & ->). by apply strip_twice, Hall.
  - apply Forall_forall. intros g Hin.
    destruct (Hfrom g Hin) as (g0 & Hg0 & ->). by apply strip_flagged, Hall.
Qed.

Lemma filter_list_raise pred pre x post e :
  Forall (λ y, ∃ b, pred y = Ok b) pre →
  pred x = Raise e →
  filter_list pred (pre ++ x :: post) = Raise e.
Proof.
  intros Hpre Hx. induction Hpre as [| y rest [b Hb] _ IH]; simpl.
  - by rewrite Hx.
  - by rewrite Hb, IH.
Qed.

Lemma strip_step_raise i g post s e :
  strip_result g = Raise e →
  strip_groups i (g :: post) s = (Raise e, s).
Proof.
  unfold strip_result. intros H. simpl. unfold bind, lift.
  destruct (getitem g "categories") as [cs |]; [| by injection H as <-].
  simpl in H. destruct (py_filter not_hidden cs) as [kept |];
    [| by injection H as <-].
  simpl in H. by rewrite H.
Qed.

Lemma strip_groups_raise pre : ∀ done s g post e,
  category_groups (self s) = Some (JArr (done ++ pre ++ g :: post)) →
  Forall flagged_group pre →
  strip_result g = Raise e →
  strip_groups (length done) (pre ++ g :: post) s =
    (Raise e, with_groups s (JArr (done ++ map strip pre ++ g :: post))).
Proof.
  induction pre as [| p pre IH]; intros done s g post e Hg Hpre Hfail.
  - change (strip_groups (length done) (g :: post) s =
              (Raise e, with_groups s (JArr (done ++ g :: post)))).
    rewrite (strip_step_raise _ _ _ _ _ Hfail).
    by rewrite with_groups_same.
  - apply Forall_cons in Hpre as [(cs & l & Hcs & Hl & Hflags) Hpre].
    destruct (strip_of _ _ _ Hcs Hl) as (Hstrip & _ & _).
    simpl in Hg. simpl.
    unfold bind at 1. unfold lift at 1. rewrite Hcs.
    unfold bind at 1. unfold lift at 1. unfold py_filter. rewrite Hl. simpl.
    rewrite (filter_list_flagged _ Hflags).
    unfold bind at 1. unfold lift at 1. rewrite Hstrip.
    rewrite (bind_run _ _ _ _ _ (store_group_run _ _ _ _ Hg)).
    rewrite insert_middle.
    replace (S (length done)) with (length (done ++ [strip p]))
      by (rewrite length_app; simpl; lia).
    rewrite (IH (done ++ [strip p]) _ g post e); [| done | done | done].
    unfold with_groups. simpl. by rewrite <- app_assoc.
Qed.

(** X12: a category without a readable [hidden] flag makes
    [__remove_hidden_categories] fail with the exception of that
    subscript.  The groups ahead of it in the list have already been
    stripped by then; its own group and the later ones are as they
    were. *)
Theorem missing_hidden_flag_aborts (s : Sys) (pre post : list json)
    (g cs : json) (cpre cpost : list json) (c : json) (e : exn) :
  category_groups (self s) = Some (JArr (pre ++ g :: post)) →
  Forall flagged_group pre →
  getitem g "categories" = Ok cs →
  py_iter cs = Ok (cpre ++ c :: cpost) →
  Forall has_flag cpre →
  getitem c "hidden" = Raise e →
  __remove_hidden_categories s =
    (Raise e, with_groups s (JArr (map strip pre ++ g :: post))) ∧
  ∀ msg, e ≠ YNABAPIError msg.
Proof.
  intros Hg Hpre Hcs Hl Hflags Hc. split.
  - unfold __remove_hidden_categories.
    rewrite (bind_run _ _ _ _ _ (attr_run "category_groups" category_groups s _ Hg)).
    unfold bind at 1. unfold lift at 1. simpl.
    apply (strip_groups_raise pre []); [done | done |].
    unfold strip_result. rewrite Hcs. simpl. unfold py_filter. rewrite Hl. simpl.
    rewrite (filter_list_raise not_hidden cpre c cpost e); [done | |].
    + eapply Forall_impl; [exact Hflags |]. intros x [h Hh].
      unfold not_hidden. rewrite Hh. simpl. eauto.
    + unfold not_hidden. by rewrite Hc.
  - intros msg ->. by destruct (getitem_raise _ _ _ Hc).
Qed.

(** ** The scenario and its variants *)

Import Variants.

Lemma call_sends_one_request_witness :
  (run_call (answering (answer 500 None))
     (Patch "/budgets/B1" (JObj [("note", JStr "x")])) ready).2 =
    logged ready
      (request_of env auth (Patch "/budgets/B1" (JObj [("note", JStr "x")])))
      (answer 500 None).
Proof.
  exact (call_sends_one_request (answering (answer 500 None))
           (Patch "/budgets/B1" (JObj [("note", JStr "x")])) ready auth eq_refl).
Defined.

Lemma call_returns_iff_witness :
  run_call (answering (answer 304 (Some error_body))) (Get "/budgets") ready =
    (Ok error_body,
     logged ready (request_of env auth (Get "/budgets"))
       (answer 304 (Some error_body))).
Proof.
  apply (call_returns_iff (answering (answer 304 (Some error_body)))
           (Get "/budgets") ready auth error_body _ eq_refl).
  exists {| status_code := 304; resp_json := Some error_body |}.
  split; [reflexivity |]. split; [reflexivity |]. split; [simpl; lia | reflexivity].
Defined.

Lemma error_body_without_fields_escapes_witness :
  run_call (answering (answer 500 (Some short_error_body))) (Get "/budgets") ready =
    (Raise (KeyError "detail"),
     logged ready (request_of env auth (Get "/budgets"))
       (answer 500 (Some short_error_body))) ∧
  ∀ msg, KeyError "detail" ≠ YNABAPIError msg.
Proof.
  apply (error_body_without_fields_escapes
           (answering (answer 500 (Some short_error_body))) (Get "/budgets")
           ready auth {| status_code := 500; resp_json := Some short_error_body |}
           short_error_body (KeyError "detail")
           eq_refl eq_refl eq_refl eq_refl).
  right. eexists. split; [reflexivity |]. right. eexists. split; reflexivity.
Defined.

Lemma setup_succeeds_iff_witness :
  __setup_ynab env "~/cred" {| self := blank; trace := [] |} = (Ok tt, ready).
Proof.
  apply (setup_succeeds_iff env "~/cred" {| self := blank; trace := [] |} ready).
  exists "{}", [("prefix", JStr "Bearer"); ("key", JStr "abc")], "Bearer", "abc".
  repeat split; reflexivity.
Defined.

Lemma ill_typed_credentials_escape_witness :
  __setup_ynab (with_file (FileText "{}") (Some (JObj [("prefix", JInt 1)])))
      "~/cred" {| self := blank; trace := [] |} =
    (Raise TypeError, with_headers {| self := blank; trace := [] |} content_type) ∧
  __init__ (with_file (FileText "{}") (Some (JObj [("prefix", JInt 1)])))
      "~/cred" {| self := blank; trace := [] |} =
    (Raise TypeError, with_headers {| self := blank; trace := [] |} content_type).
Proof.
  exact (ill_typed_credentials_escape
           (with_file (FileText "{}") (Some (JObj [("prefix", JInt 1)])))
           "~/cred" "{}" (JObj [("prefix", JInt 1)])
           {| self := blank; trace := [] |} eq_refl eq_refl eq_refl).
Defined.

Lemma budget_scan_subscript_escapes_witness :
  __get_ynab_budget_id (answering (answer 200 (Some nameless_first)))
      "My Budget" ready =
    (Raise (KeyError "name"),
     logged ready (request_of env auth (Get "/budgets"))
       (answer 200 (Some nameless_first))).
Proof.
  refine (proj1 (budget_scan_subscript_escapes
                   (answering (answer 200 (Some nameless_first))) "My Budget"
                   ready auth
                   {| status_code := 200; resp_json := Some nameless_first |}
                   nameless_first _ []
                   [JObj [("id", JStr "B1"); ("name", JStr "My Budget")]]
                   (JObj [("id", JStr "B0")]) (KeyError "name")
                   eq_refl eq_refl eq_refl eq_refl eq_refl eq_refl _ _)).
  - constructor.
  - left. reflexivity.
Defined.

Lemma construction_sends_two_requests_witness :
  ∃ text items prefix key id r1 r2,
    open_read env (expanduser env "~/cred") = FileText text ∧
    json_loads env text = Some (JObj items) ∧
    assoc "prefix" items = Some (JStr prefix) ∧
    assoc "key" items = Some (JStr key) ∧
    let h := authorized prefix key in
    headers (self (construct env "~/cred" []).2) = Some h ∧
    budget_id (self (construct env "~/cred" []).2) = Some id ∧
    trace (construct env "~/cred" []).2 =
      [] ++ [(budgets_request env h, Response r1);
             (categories_request env h id, Response r2)] ∧
    http env [] (budgets_request env h) = Response r1 ∧
    http env ([] ++ [(budgets_request env h, Response r1)])
      (categories_request env h id) = Response r2 ∧
    ok r1 = true ∧ ok r2 = true ∧
    ∃ summary data budgets l b,
      resp_json r1 = Some summary ∧
      getitem summary "data" = Ok data ∧
      getitem data "budgets" = Ok budgets ∧
      py_iter budgets = Ok l ∧
      b ∈ l ∧
      getitem b "name" = Ok (JStr "My Budget") ∧
      getitem b "id" = Ok id.
Proof.
  apply (construction_sends_two_requests env "~/cred" []).
  vm_compute. reflexivity.
Defined.

Lemma index_last_category_wins_witness :
  ∃ ids, category_ids (self (construct twins "~/cred" []).2) = Some ids ∧
         ids !! KStr "Rent" = Some (JStr "c9").
Proof.
  destruct (index_last_category_wins twins "~/cred" [] (construct twins "~/cred" []).2)
    as (gs & ids & Hf & Hids & Hlast); [vm_compute; reflexivity |].
  exists ids. split; [exact Hids |].
  vm_compute in Hf. injection Hf as <-.
  apply (Hlast [category "Rent" "c1" true] (category "Rent" "c9" false) []).
  - reflexivity.
  - exists (JStr "Rent"). split; reflexivity.
  - reflexivity.
  - intros c' Hc'. by apply elem_of_nil in Hc'.
Defined.

Lemma construction_succeeds_witness :
  construct env "~/cred" [] =
    (Ok tt,
     {| self := {| headers := Some auth;
                   budget_id := Some (JStr "B1");
                   category_groups :=
                     Some (JArr (List.filter retained (map strip fetched)));
                   category_ids :=
                     Some (index_of (flat_map categories_of fetched)) |};
        trace := [] ++ [(budgets_request env auth,
                         answer 200 (Some budgets_body));
                        (categories_request env auth (JStr "B1"),
                         answer 200 (Some categories_body))] |}).
Proof.
  refine (construction_succeeds env "~/cred" "{}"
            [("prefix", JStr "Bearer"); ("key", JStr "abc")] "Bearer" "abc" []
            {| status_code := 200; resp_json := Some budgets_body |}
            {| status_code := 200; resp_json := Some categories_body |}
            budgets_body _
            [JObj [("id", JStr "B0"); ("name", JStr "Old Budget")]] []
            (JObj [("id", JStr "B1"); ("name", JStr "My Budget")]) (JStr "B1")
            categories_body _ fetched
            eq_refl eq_refl eq_refl eq_refl eq_refl eq_refl eq_refl eq_refl eq_refl
            _ eq_refl eq_refl eq_refl eq_refl eq_refl eq_refl eq_refl _).
  - constructor; [| constructor].
    exists (JStr "Old Budget"). split; [reflexivity | discriminate].
  - repeat constructor;
      eexists; (split; [reflexivity |]);
      repeat constructor;
      try (eexists; reflexivity);
      try (eexists; eexists; split; reflexivity).
Defined.

Lemma missing_budget_stops_construction_witness :
  construct elsewhere "~/cred" [] =
    (Raise (YNABAPIError "Budget 'My Budget' not found"),
     {| self := {| headers := Some auth; budget_id := None;
                   category_groups := None; category_ids := None |};
        trace := [] ++ [(budgets_request elsewhere auth,
                         answer 200 (Some old_only))] |}).
Proof.
  refine (missing_budget_stops_construction elsewhere "~/cred" "{}"
            [("prefix", JStr "Bearer"); ("key", JStr "abc")] "Bearer" "abc" []
            {| status_code := 200; resp_json := Some old_only |}
            old_only _ [JObj [("id", JStr "B0"); ("name", JStr "Old Budget")]]
            eq_refl eq_refl eq_refl eq_refl eq_refl eq_refl eq_refl eq_refl eq_refl _).
  constructor; [| constructor].
  exists (JStr "Old Budget"). split; [reflexivity | discriminate].
Defined.

Lemma fetched_flagged : Forall flagged_group fetched.
Proof.
  repeat constructor; eexists; eexists; (split; [reflexivity |]);
    (split; [reflexivity |]); repeat constructor; eexists; reflexivity.
Qed.

Lemma cleanup_idempotent_witness :
  ∃ s1, cleanup (with_groups ready (JArr fetched)) = (Ok tt, s1) ∧
        cleanup s1 = (Ok tt, s1).
Proof.
  exact (cleanup_idempotent (with_groups ready (JArr fetched)) fetched
           eq_refl fetched_flagged).
Defined.

Lemma missing_hidden_flag_aborts_witness :
  __remove_hidden_categories (with_groups ready (JArr [bills; flagless; master])) =
    (Raise (KeyError "hidden"),
     with_groups ready (JArr [strip bills; flagless; master])) ∧
  ∀ msg, KeyError "hidden" ≠ YNABAPIError msg.
Proof.
  refine (missing_hidden_flag_aborts
            (with_groups ready (JArr [bills; flagless; master]))
            [bills] [master] flagless _
            [category "Gas" "c5" false] []
            (JObj [("id", JStr "c6"); ("name", JStr "Water")])
            (KeyError "hidden") eq_refl _ eq_refl eq_refl _ eq_refl).
  - repeat constructor; eexists; eexists; (split; [reflexivity |]);
      (split; [reflexivity |]); repeat constructor; eexists; reflexivity.
  - repeat constructor. eexists; reflexivity.
Defined.

(** ** Where the specification's wording fails *)


(** C7 as the specification words it fails twice: a file whose bytes do
    not decode leaves [__setup_ynab] with [UnicodeDecodeError], and the
    object [{"prefix": 1}], which has no [key], leaves it with
    [TypeError]; neither is the client error. *)
Lemma credential_failures_not_uniform :
  (__setup_ynab undecodable "cred" fresh).1 = Raise UnicodeDecodeError ∧
  ¬ credential_failures_uniform undecodable "cred" fresh ∧
  (__setup_ynab numeric_prefix "cred" fresh).1 = Raise TypeError ∧
  ¬ credential_failures_uniform numeric_prefix "cred" fresh.
Proof.
  split; [reflexivity |]. split; [| split; [reflexivity |]].
  - intros (_ & Hjson & _).
    destruct Hjson as [msg Hmsg]; [by left |]. discriminate Hmsg.
  - intros (_ & _ & Hfield).
    destruct (Hfield "{}" [("prefix", JInt 1)] eq_refl eq_refl) as [msg Hmsg];
      [by right |]. discriminate Hmsg.
Qed.
